(** * Local slashing protection of the validator client

    A shallow embedding of [validator/client/attest_protect.go]:
    [preAttSignValidations], [isNewAttSlashable],
    [markAttestationForTargetEpoch] and [safeTargetToSource], together with
    the properties of the attestation history they maintain.

    Conventions.
    - A Go [uint64] is a [Z] in [0, 2^64); the places where the source can
      wrap around ([i++], [lew + wsPeriod]) go through [U64.add], and the
      conversions [int(x)] go through [U64.to_int] (Go's [int] is the 64-bit
      two's complement integer on the platforms the client is built for).
    - A Go pointer that may be nil is an [option]; dereferencing nil is the
      outcome [Panics].
    - A [for] loop whose counter can wrap takes fuel, and running out of it is
      the outcome [OutOfFuel]: results are stated for every sufficient fuel.
    - The package [validator/db/kv] is not part of the sources at hand. Its
      four accessors are the operations of the class [kv.EncHistory]; what
      the design document says of them is the class [kv.EncHistoryLaws],
      and [kv.EncHistoryLaws32] for a store that keeps 32-byte signing
      roots. *)

From Stdlib Require Import ZArith Lia.
From Stdlib.Strings Require Import Byte.
From stdpp Require Import base gmap strings list.

Local Open Scope Z_scope.

(** ** Machine integers *)

Module U64.

Definition max : Z := 2 ^ 64 - 1.

(** [x] is a value of type [uint64]. *)
Definition In (x : Z) : Prop := 0 <= x < 2 ^ 64.

Definition wrap (x : Z) : Z := x mod 2 ^ 64.

(** [a + b] on [uint64]. *)
Definition add (a b : Z) : Z := wrap (a + b).

(** [int(x)] for [x : uint64]: reinterpretation as a signed 64-bit integer. *)
Definition to_int (x : Z) : Z := (x + 2 ^ 63) mod 2 ^ 64 - 2 ^ 63.

(** [a - b] on [int]: signed subtraction, wrapping on overflow. *)
Definition int_sub (a b : Z) : Z := to_int (a - b).

End U64.

(** ** Byte slices *)

Module bytes.

(** [bytes.Equal]: same length and same contents; a nil slice equals an
    empty one. *)
Fixpoint Equal (a b : list byte) : bool :=
  match a, b with
  | [], [] => true
  | x :: a', y :: b' => Byte.eqb x y && Equal a' b'
  | _, _ => false
  end.

End bytes.

(** ** Results of calls *)

Inductive error : Type :=
| errorString (msg : string).

(** A Go pair [(value, err)] with [err == nil] or not. *)
Inductive result (A : Type) : Type :=
| Ok (a : A)
| Err (e : error).

Arguments Ok {A} a.
Arguments Err {A} e.

(** How a call of the embedded code ends. *)
Inductive outcome (A : Type) : Type :=
| Returns (a : A)
| Panics
| OutOfFuel.

Arguments Returns {A} a.
Arguments Panics {A}.
Arguments OutOfFuel {A}.

(** ** Package [kv]: the encapsulated attestation history *)

Module kv.

(** [kv.HistoryData]: the vote recorded for one target epoch. *)
Record HistoryData : Type := mkHistoryData {
  Source : Z;
  SigningRoot : list byte
}.

(** The method set of [*kv.EncHistoryData] that the client calls. A
    [*kv.HistoryData] that is nil (no vote for the epoch) is [None]. *)
Class EncHistory (H : Type) : Type := {
  GetLatestEpochWritten : H -> result Z;
  SetLatestEpochWritten : H -> Z -> result H;
  GetTargetData : H -> Z -> result (option HistoryData);
  SetTargetData : H -> Z -> option HistoryData -> result H
}.

(** Modelled from the spec: the implementation of [kv.EncHistoryData] is
    missing. The history is a ring buffer of [wsPeriod] slots addressed
    modulo [wsPeriod] plus a high-water mark; a write for an epoch replaces
    the entry of its slot and nothing else, and a read returns the entry
    last written (Absent included). An entry written without a signing root
    is read back without one here; [EncHistoryLaws32] below does not assume
    that. *)
Class EncHistoryLaws (wsPeriod : Z) (H : Type) `{EncHistory H} : Prop := {
  get_set_target_eq : forall (h h' : H) (i j : Z) (d : option HistoryData),
    SetTargetData h i d = Ok h' ->
    j mod wsPeriod = i mod wsPeriod ->
    GetTargetData h' j = Ok d;
  get_set_target_ne : forall (h h' : H) (i j : Z) (d : option HistoryData),
    SetTargetData h i d = Ok h' ->
    j mod wsPeriod <> i mod wsPeriod ->
    GetTargetData h' j = GetTargetData h j;
  lew_set_target : forall (h h' : H) (i : Z) (d : option HistoryData),
    SetTargetData h i d = Ok h' ->
    GetLatestEpochWritten h' = GetLatestEpochWritten h;
  lew_set_lew : forall (h h' : H) (e : Z),
    SetLatestEpochWritten h e = Ok h' ->
    GetLatestEpochWritten h' = Ok e;
  get_set_lew : forall (h h' : H) (e j : Z),
    SetLatestEpochWritten h e = Ok h' ->
    GetTargetData h' j = GetTargetData h j
}.

(** Modelled from the spec: the same ring buffer, for a store whose entries
    carry a 32-byte signing root. A vote is read back as written when its
    root has 32 bytes. Of a vote written without such a root (the entry of
    [markAttestationForTargetEpoch]) only the source epoch is promised: the
    root read back is whatever the store keeps for it (nothing, 32 zero
    bytes, or what the slot held). Every [EncHistoryLaws] store is one
    of these. *)
Class EncHistoryLaws32 (wsPeriod : Z) (H : Type) `{EncHistory H} : Prop := {
  get_set_vote32 : forall (h h' : H) (i j : Z) (d : HistoryData),
    SetTargetData h i (Some d) = Ok h' ->
    j mod wsPeriod = i mod wsPeriod ->
    exists stored : HistoryData,
      GetTargetData h' j = Ok (Some stored)
      /\ Source stored = Source d
      /\ (length (SigningRoot d) = 32%nat -> stored = d);
  get_set_absent32 : forall (h h' : H) (i j : Z),
    SetTargetData h i None = Ok h' ->
    j mod wsPeriod = i mod wsPeriod ->
    GetTargetData h' j = Ok None;
  get_set_target_ne32 : forall (h h' : H) (i j : Z) (d : option HistoryData),
    SetTargetData h i d = Ok h' ->
    j mod wsPeriod <> i mod wsPeriod ->
    GetTargetData h' j = GetTargetData h j;
  lew_set_target32 : forall (h h' : H) (i : Z) (d : option HistoryData),
    SetTargetData h i d = Ok h' ->
    GetLatestEpochWritten h' = GetLatestEpochWritten h;
  lew_set_lew32 : forall (h h' : H) (e : Z),
    SetLatestEpochWritten h e = Ok h' ->
    GetLatestEpochWritten h' = Ok e;
  get_set_lew32 : forall (h h' : H) (e j : Z),
    SetLatestEpochWritten h e = Ok h' ->
    GetTargetData h' j = GetTargetData h j
}.

End kv.

(** ** Package [ethpb]: the attestation being signed *)

Module ethpb.

Record Checkpoint : Type := mkCheckpoint {
  Epoch : Z;
  Root : list byte
}.

Record AttestationData : Type := mkAttestationData {
  Slot : Z;
  CommitteeIndex : Z;
  BeaconBlockRoot : list byte;
  Source : Checkpoint;
  Target : Checkpoint
}.

Record IndexedAttestation : Type := mkIndexedAttestation {
  AttestingIndices : list Z;
  Data : AttestationData;
  Signature : list byte
}.

End ethpb.

(** ** The validator client *)

Definition failedPreAttSignLocalErr : string :=
  "attempted to make slashable attestation, rejected by local slashing protection".

Definition failedPreAttSignExternalErr : string :=
  "attempted to make slashable attestation, rejected by external slasher service".

Definition failedPostAttSignExternalErr : string :=
  "external slasher service detected a submitted slashable attestation".

(** The external slasher client ([v.protector]). *)
Record Protector : Type := mkProtector {
  CheckAttestationSafety : ethpb.IndexedAttestation -> bool;
  CommitAttestation : ethpb.IndexedAttestation -> bool
}.

(** The fields and methods of [validator] that attestation protection uses.
    Public keys ([[48]byte]) are the map's keys, read as numbers.
    [getDomainAndSigningRoot] returns the triple (domain, signing root, err)
    of the Go method; its signing root is a [[32]byte]. *)
Record validator (H : Type) : Type := mkValidator {
  attesterHistoryByPubKey : gmap N (option H);
  protector : option Protector;
  emitAccountMetrics : bool;
  getDomainAndSigningRoot :
    ethpb.AttestationData -> list byte * list byte * option error
}.

Arguments mkValidator {H}.
Arguments attesterHistoryByPubKey {H}.
Arguments protector {H}.
Arguments emitAccountMetrics {H}.
Arguments getDomainAndSigningRoot {H}.

(** [v] with another implementation of [getDomainAndSigningRoot]. *)
Definition withSigner {H : Type} (v : validator H)
  (signer : ethpb.AttestationData -> list byte * list byte * option error)
  : validator H :=
  mkValidator (attesterHistoryByPubKey v) (protector v)
    (emitAccountMetrics v) signer.

(** The signing root that [getDomainAndSigningRoot] returns. *)
Definition signingRootOf {H : Type} (v : validator H)
  (data : ethpb.AttestationData) : list byte :=
  snd (fst (getDomainAndSigningRoot v data)).

(** [v] after an assignment to [v.attesterHistoryByPubKey]. *)
Definition withHistories {H : Type} (v : validator H)
  (histories : gmap N (option H)) : validator H :=
  mkValidator histories (protector v) (emitAccountMetrics v)
    (getDomainAndSigningRoot v).

Section Client.

Context {H : Type} `{kv.EncHistory H}.

(** [params.BeaconConfig().WeakSubjectivityPeriod]. The source divides by
    it ([%]), which panics at 0 in Go: the definitions below stand for a
    positive period, and the statements about paths that reach a [%] assume
    one. *)
Variable wsPeriod : Z.

(** [featureconfig.Get().SlasherProtection]. *)
Variable slasherProtection : bool.

(** [safeTargetToSource]: the entry of [targetEpoch], nil when the epoch is
    out of bounds or a read fails. *)
Definition safeTargetToSource (history : H) (targetEpoch : Z)
  : option kv.HistoryData :=
  match kv.GetLatestEpochWritten history with
  | Err _ => None
  | Ok lew =>
    if (targetEpoch >? lew)
       || (U64.to_int targetEpoch
           <? U64.int_sub (U64.to_int lew) (U64.to_int wsPeriod))
    then None
    else
      match kv.GetTargetData history (targetEpoch mod wsPeriod) with
      | Err _ => None
      | Ok hd => hd
      end
  end.

(** The guard of line 83: [int(targetEpoch) <= int(lew)-int(wsPeriod)]. *)
Definition previouslyPruned (lew targetEpoch : Z) : bool :=
  U64.to_int targetEpoch
  <=? U64.int_sub (U64.to_int lew) (U64.to_int wsPeriod).

(** The guard of line 93:
    [hd != nil && !bytes.Equal(sr[:], hd.SigningRoot)]. *)
Definition doubleVote (hd : option kv.HistoryData) (sr : list byte) : bool :=
  match hd with
  | None => false
  | Some d => negb (bytes.Equal sr (kv.SigningRoot d))
  end.

(** The loop of lines 98-108, from counter value [i] on. [Returns true] is
    the [return true] of its body, [Returns false] is leaving the loop. *)
Fixpoint surroundingLoop (fuel : nat) (history : H)
  (sourceEpoch targetEpoch i : Z) : outcome bool :=
  match fuel with
  | O => OutOfFuel
  | S fuel' =>
    if i <=? targetEpoch then
      match safeTargetToSource history i with
      | None =>
        surroundingLoop fuel' history sourceEpoch targetEpoch (U64.add i 1)
      | Some historyBoundry =>
        if kv.Source historyBoundry >? sourceEpoch then Returns true
        else
          surroundingLoop fuel' history sourceEpoch targetEpoch (U64.add i 1)
      end
    else Returns false
  end.

(** The loop of lines 111-115, from counter value [i] on. The entry is
    dereferenced without a nil check. *)
Fixpoint surroundedLoop (fuel : nat) (history : H)
  (sourceEpoch lew i : Z) : outcome bool :=
  match fuel with
  | O => OutOfFuel
  | S fuel' =>
    if i <=? lew then
      match safeTargetToSource history i with
      | None => Panics
      | Some hd =>
        if kv.Source hd <? sourceEpoch then Returns true
        else surroundedLoop fuel' history sourceEpoch lew (U64.add i 1)
      end
    else Returns false
  end.

(** [isNewAttSlashable]. The [err] of [getDomainAndSigningRoot] is bound and
    then overwritten by the one of [GetLatestEpochWritten]. *)
Definition isNewAttSlashable (v : validator H) (fuel : nat)
  (history : option H) (sourceEpoch targetEpoch : Z)
  (indexedAtt : ethpb.IndexedAttestation) : outcome bool :=
  match history with
  | None => Returns false
  | Some history =>
    let '(_, sr, err) := getDomainAndSigningRoot v (ethpb.Data indexedAtt) in
    match kv.GetLatestEpochWritten history with
    | Err _ => Returns false
    | Ok lew =>
      if previouslyPruned lew targetEpoch then Returns false
      else
        match kv.GetTargetData history targetEpoch with
        | Err _ => Returns false
        | Ok hd =>
          if doubleVote hd sr then Returns true
          else
            match
              surroundingLoop fuel history sourceEpoch targetEpoch sourceEpoch
            with
            | Returns true => Returns true
            | Returns false =>
              surroundedLoop fuel history sourceEpoch lew targetEpoch
            | Panics => Panics
            | OutOfFuel => OutOfFuel
            end
        end
    end
  end.

(** Lines 34-41 of [preAttSignValidations]: the external slasher, asked
    when the feature is on and a protector is configured. *)
Definition externalPreCheck (v : validator H)
  (indexedAtt : ethpb.IndexedAttestation) : option string :=
  match slasherProtection, protector v with
  | true, Some p =>
    if negb (CheckAttestationSafety p indexedAtt)
    then Some failedPreAttSignExternalErr
    else None
  | _, _ => None
  end.

(** [preAttSignValidations]: [Returns None] is the nil error (the
    attestation may be signed), [Returns (Some msg)] rejects it. Metrics and
    logging are left out. *)
Definition preAttSignValidations (v : validator H) (fuel : nat)
  (indexedAtt : ethpb.IndexedAttestation) (pubKey : N)
  : outcome (option string) :=
  match attesterHistoryByPubKey v !! pubKey with
  | Some attesterHistory =>
    match
      isNewAttSlashable v fuel attesterHistory
        (ethpb.Epoch (ethpb.Source (ethpb.Data indexedAtt)))
        (ethpb.Epoch (ethpb.Target (ethpb.Data indexedAtt))) indexedAtt
    with
    | Returns true => Returns (Some failedPreAttSignLocalErr)
    | Returns false => Returns (externalPreCheck v indexedAtt)
    | Panics => Panics
    | OutOfFuel => OutOfFuel
    end
  | None => Returns (externalPreCheck v indexedAtt)
  end.

(** The loop of lines 136-142, from counter value [i] on. The counter stays
    below [targetEpoch], so [n] iterations suffice once
    [targetEpoch - i <= n] (lemma [evictLoop_fuel]). *)
Fixpoint evictLoop (n : nat) (history : H) (targetEpoch maxToWrite i : Z)
  : result H :=
  match n with
  | O => Ok history
  | S n' =>
    if (i <? targetEpoch) && (i <=? maxToWrite) then
      match kv.SetTargetData history (i mod wsPeriod) None with
      | Err e => Err e
      | Ok history' =>
        evictLoop n' history' targetEpoch maxToWrite (U64.add i 1)
      end
    else Ok history
  end.

(** [markAttestationForTargetEpoch]; the result nil is [None]. *)
Definition markAttestationForTargetEpoch (history : option H)
  (sourceEpoch targetEpoch : Z) : option H :=
  match history with
  | None => None
  | Some history =>
    match kv.GetLatestEpochWritten history with
    | Err _ => None
    | Ok lew =>
      let slid :=
        if targetEpoch >? lew then
          let maxToWrite := U64.add lew wsPeriod in
          match
            evictLoop (Z.to_nat (targetEpoch - lew)) history targetEpoch
              maxToWrite (U64.add lew 1)
          with
          | Err e => Err e
          | Ok history' => kv.SetLatestEpochWritten history' targetEpoch
          end
        else Ok history in
      match slid with
      | Err _ => None
      | Ok history' =>
        match
          kv.SetTargetData history' (targetEpoch mod wsPeriod)
            (Some (kv.mkHistoryData sourceEpoch []))
        with
        | Err _ => None
        | Ok history'' => Some history''
        end
      end
    end
  end.

(** Lines 57-64 of [postAttSignUpdate]: the external slasher is told of the
    attestation when the feature is on and a protector is configured. *)
Definition externalPostCommit (v : validator H)
  (indexedAtt : ethpb.IndexedAttestation) : option string :=
  match slasherProtection, protector v with
  | true, Some p =>
    if negb (CommitAttestation p indexedAtt)
    then Some failedPostAttSignExternalErr
    else None
  | _, _ => None
  end.

(** [postAttSignUpdate]: the validator after the call and the error
    returned ([None] is nil). The history of [pubKey], when the map has one,
    is replaced by the result of [markAttestationForTargetEpoch], nil
    included. The lock, metrics and logging are left out. *)
Definition postAttSignUpdate (v : validator H)
  (indexedAtt : ethpb.IndexedAttestation) (pubKey : N)
  : validator H * option string :=
  let v' :=
    match attesterHistoryByPubKey v !! pubKey with
    | Some attesterHistory =>
      withHistories v
        (<[pubKey :=
             markAttestationForTargetEpoch attesterHistory
               (ethpb.Epoch (ethpb.Source (ethpb.Data indexedAtt)))
               (ethpb.Epoch (ethpb.Target (ethpb.Data indexedAtt)))]>
           (attesterHistoryByPubKey v))
    | None => v
    end in
  (v', externalPostCommit v' indexedAtt).

End Client.

(** ** An in-memory history *)

Module MemHistory.

(** A slot of the ring buffer that holds something: a vote, or bytes that do
    not decode. An empty slot is a key without a binding. *)
Inductive slot : Type :=
| Vote (hd : kv.HistoryData)
| Damaged.

(** The high-water mark ([None]: the header does not decode) and the slots,
    keyed by ring index. *)
Record t : Type := mk {
  header : option Z;
  slots : gmap Z slot
}.

Definition decodeError : error := errorString "could not decode history".

(** Modelled from the spec: an instance of the missing [kv.EncHistoryData],
    a ring buffer addressed modulo [wsPeriod] whose reads fail on data that
    does not decode and whose writes replace one slot or the header. *)
Definition backend (wsPeriod : Z) : kv.EncHistory t := {|
  kv.GetLatestEpochWritten h :=
    match header h with
    | Some lew => Ok lew
    | None => Err decodeError
    end;
  kv.SetLatestEpochWritten h e := Ok (mk (Some e) (slots h));
  kv.GetTargetData h i :=
    match slots h !! (i mod wsPeriod) with
    | None => Ok None
    | Some (Vote d) => Ok (Some d)
    | Some Damaged => Err decodeError
    end;
  kv.SetTargetData h i d :=
    Ok (mk (header h)
          (match d with
           | Some hd => <[i mod wsPeriod := Vote hd]> (slots h)
           | None => delete (i mod wsPeriod) (slots h)
           end))
|}.

(** A signing root as a store of 32-byte roots keeps it: cut or filled with
    zero bytes to 32 bytes. *)
Definition pad32 (root : list byte) : list byte :=
  firstn 32 (root ++ repeat x00 32).

(** Modelled from the spec: a second instance of the missing
    [kv.EncHistoryData], whose entries carry a 32-byte signing root as the
    spec's HistoryEntry does; for the rest it is [backend]. *)
Definition backend32 (wsPeriod : Z) : kv.EncHistory t := {|
  kv.GetLatestEpochWritten h :=
    match header h with
    | Some lew => Ok lew
    | None => Err decodeError
    end;
  kv.SetLatestEpochWritten h e := Ok (mk (Some e) (slots h));
  kv.GetTargetData h i :=
    match slots h !! (i mod wsPeriod) with
    | None => Ok None
    | Some (Vote d) => Ok (Some d)
    | Some Damaged => Err decodeError
    end;
  kv.SetTargetData h i d :=
    Ok (mk (header h)
          (match d with
           | Some hd =>
             <[i mod wsPeriod :=
                 Vote (kv.mkHistoryData (kv.Source hd)
                         (pad32 (kv.SigningRoot hd)))]> (slots h)
           | None => delete (i mod wsPeriod) (slots h)
           end))
|}.

(** A history that has never been written. *)
Definition fresh : t := mk (Some 0) ∅.

(** A history whose header does not decode. *)
Definition unreadable : t := mk None ∅.

End MemHistory.

(** ** Sample data: a weak subjectivity period of 100 epochs *)

Module Sample.

(** A 32-byte signing root filled with one byte. *)
Definition rootOf (b : byte) : list byte := repeat b 32.

Definition att (sourceEpoch targetEpoch : Z) : ethpb.IndexedAttestation :=
  ethpb.mkIndexedAttestation []
    (ethpb.mkAttestationData 0 0 []
       (ethpb.mkCheckpoint sourceEpoch []) (ethpb.mkCheckpoint targetEpoch []))
    [].

(** A validator with one key, [7], no external slasher, and a signer that
    returns [sr] and [err] for every attestation. *)
Definition client (history : option MemHistory.t) (sr : list byte)
  (err : option error) : validator MemHistory.t :=
  mkValidator {[ 7%N := history ]} None false (fun _ => ([], sr, err)).

(** Abbreviations for the calls on the in-memory history. *)
Abbreviation record history sourceEpoch targetEpoch :=
  (markAttestationForTargetEpoch (H0 := MemHistory.backend 100) 100
     history sourceEpoch targetEpoch) (only parsing).

Abbreviation check fuel history sourceEpoch targetEpoch sr :=
  (isNewAttSlashable (H0 := MemHistory.backend 100) 100
     (client history sr None) fuel history sourceEpoch targetEpoch
     (att sourceEpoch targetEpoch)) (only parsing).

Abbreviation lookup history epoch :=
  (safeTargetToSource (H0 := MemHistory.backend 100) 100 history epoch)
  (only parsing).

Abbreviation getTarget history epoch :=
  (kv.GetTargetData (EncHistory := MemHistory.backend 100) history epoch)
  (only parsing).

Abbreviation getLatest history :=
  (kv.GetLatestEpochWritten (EncHistory := MemHistory.backend 100) history)
  (only parsing).

(** The same calls on the store of 32-byte roots. *)
Abbreviation record32 history sourceEpoch targetEpoch :=
  (markAttestationForTargetEpoch (H0 := MemHistory.backend32 100) 100
     history sourceEpoch targetEpoch) (only parsing).

Abbreviation check32 fuel history sourceEpoch targetEpoch sr :=
  (isNewAttSlashable (H0 := MemHistory.backend32 100) 100
     (client history sr None) fuel history sourceEpoch targetEpoch
     (att sourceEpoch targetEpoch)) (only parsing).

Abbreviation lookup32 history epoch :=
  (safeTargetToSource (H0 := MemHistory.backend32 100) 100 history epoch)
  (only parsing).

Abbreviation getTarget32 history epoch :=
  (kv.GetTargetData (EncHistory := MemHistory.backend32 100) history epoch)
  (only parsing).

(** The history with high-water mark 1000 whose only vote is the one for
    target epoch 1000 (source 999), in slot 0. *)
Definition at1000 : MemHistory.t :=
  MemHistory.mk (Some 1000)
    {[ 0 := MemHistory.Vote (kv.mkHistoryData 999 (rootOf x01)) ]}.

(** The same high-water mark with a vote left in slot 5 by epoch 905. *)
Definition leftover905 : MemHistory.t :=
  MemHistory.mk (Some 1000)
    {[ 5 := MemHistory.Vote (kv.mkHistoryData 904 (rootOf x01)) ]}.

(** A history with high-water mark 10 whose slot 5 does not decode. *)
Definition damaged5 : MemHistory.t :=
  MemHistory.mk (Some 10) {[ 5 := MemHistory.Damaged ]}.

(** A history with high-water mark 5 whose vote for target epoch 5 carries
    the all-zero signing root. *)
Definition zeroVote5 : MemHistory.t :=
  MemHistory.mk (Some 5)
    {[ 5 := MemHistory.Vote (kv.mkHistoryData 4 (rootOf x00)) ]}.

Definition signError : error := errorString "could not get signing root".


(** An external slasher that refuses everything. *)
Definition strict : Protector := mkProtector (fun _ => false) (fun _ => false).

(** A validator with the keys [7] and [8] and the external slasher
    [strict]. *)
Definition guarded (history7 history8 : option MemHistory.t)
  (sr : list byte) : validator MemHistory.t :=
  mkValidator {[ 7%N := history7; 8%N := history8 ]} (Some strict) false
    (fun _ => ([], sr, None)).

End Sample.

(** ** The slots a window slide clears *)

(** The slot of epoch [j] is cleared by the loop of
    [markAttestationForTargetEpoch]: some counter value [i] with
    [lew < i < targetEpoch] and [i <= maxToWrite] falls on it. *)
Definition evictedBy (wsPeriod lew targetEpoch j : Z) : Prop :=
  exists i : Z,
    lew < i < targetEpoch /\ i <= U64.add lew wsPeriod
    /\ i mod wsPeriod = j mod wsPeriod.

(** The same, for the range the design document gives: [i] strictly
    between [lew] and [min(targetEpoch, lew + wsPeriod)]. *)
Definition evictedBySpec (wsPeriod lew targetEpoch j : Z) : Prop :=
  exists i : Z,
    lew < i < Z.min targetEpoch (lew + wsPeriod)
    /\ i mod wsPeriod = j mod wsPeriod.

(** Some bounded lookup in [[lo, hi]] yields a vote whose source epoch is
    greater than [sourceEpoch]. *)
Definition surroundsRecorded {H : Type} `{kv.EncHistory H} (wsPeriod : Z)
  (history : H) (sourceEpoch lo hi : Z) : Prop :=
  exists (i : Z) (hd : kv.HistoryData),
    lo <= i <= hi
    /\ safeTargetToSource wsPeriod history i = Some hd
    /\ kv.Source hd > sourceEpoch.

(** * Properties *)

(** ** Machine arithmetic *)

Lemma to_int_small (x : Z) : 0 <= x < 2 ^ 63 -> U64.to_int x = x.
Proof.
  intros Hx. unfold U64.to_int.
  rewrite Z.mod_small by lia. lia.
Qed.

Lemma int_sub_small (a b : Z) :
  0 <= a < 2 ^ 63 -> 0 <= b < 2 ^ 63 -> U64.int_sub a b = a - b.
Proof.
  intros Ha Hb. unfold U64.int_sub, U64.to_int.
  rewrite Z.mod_small by lia. lia.
Qed.

Lemma add_small (a b : Z) : 0 <= a + b < 2 ^ 64 -> U64.add a b = a + b.
Proof.
  intros Hab. unfold U64.add, U64.wrap. apply Z.mod_small. lia.
Qed.

Lemma bytes_Equal_length (a b : list byte) :
  bytes.Equal a b = true -> length a = length b.
Proof.
  revert b. induction a as [|x a IH]; intros [|y b]; simpl; try discriminate.
  - reflexivity.
  - intros Hab. apply andb_prop in Hab as [_ Hab]. f_equal. auto.
Qed.

Lemma bytes_Equal_eq (a b : list byte) : bytes.Equal a b = true <-> a = b.
Proof.
  revert b. induction a as [|x a IH]; intros [|y b]; simpl;
    try (split; [discriminate | congruence]).
  - split; reflexivity.
  - rewrite andb_true_iff, IH. split.
    + intros [Hxy ->]. apply Byte.byte_dec_bl in Hxy. congruence.
    + intros [= -> ->]. split; [|reflexivity].
      apply Byte.byte_dec_lb. reflexivity.
Qed.

(** The double-vote guard flags exactly the roots that differ from the
    recorded one. *)
Lemma doubleVote_iff (hd : kv.HistoryData) (sr : list byte) :
  doubleVote (Some hd) sr = true <-> sr <> kv.SigningRoot hd.
Proof.
  simpl. rewrite negb_true_iff, <- not_true_iff_false, bytes_Equal_eq.
  reflexivity.
Qed.

Section ClientFacts.

Context {H : Type} `{kv.EncHistory H}.

Variable wsPeriod : Z.

Lemma previouslyPruned_small (lew targetEpoch : Z) :
  0 <= targetEpoch < 2 ^ 63 -> 0 <= lew < 2 ^ 63 -> 0 <= wsPeriod < 2 ^ 63 ->
  previouslyPruned wsPeriod lew targetEpoch = (targetEpoch <=? lew - wsPeriod).
Proof.
  intros Ht Hl Hw. unfold previouslyPruned.
  rewrite !to_int_small by assumption.
  rewrite int_sub_small by assumption. reflexivity.
Qed.

(** The pruned-window guard, in the terms of the source. *)
Lemma isNewAttSlashable_pruned (v : validator H) (fuel : nat) (history : H)
  (sourceEpoch targetEpoch lew : Z) (indexedAtt : ethpb.IndexedAttestation) :
  kv.GetLatestEpochWritten history = Ok lew ->
  previouslyPruned wsPeriod lew targetEpoch = true ->
  isNewAttSlashable wsPeriod v fuel (Some history) sourceEpoch targetEpoch
    indexedAtt = Returns false.
Proof.
  intros Hlew Hp. unfold isNewAttSlashable.
  destruct (getDomainAndSigningRoot v _) as [[dom sr] err].
  rewrite Hlew, Hp. reflexivity.
Qed.

(** A failed read of the high-water mark ends the check with [false]. *)
Lemma isNewAttSlashable_lew_error (v : validator H) (fuel : nat) (history : H)
  (sourceEpoch targetEpoch : Z) (indexedAtt : ethpb.IndexedAttestation)
  (e : error) :
  kv.GetLatestEpochWritten history = Err e ->
  isNewAttSlashable wsPeriod v fuel (Some history) sourceEpoch targetEpoch
    indexedAtt = Returns false.
Proof.
  intros Hlew. unfold isNewAttSlashable.
  destruct (getDomainAndSigningRoot v _) as [[dom sr] err].
  rewrite Hlew. reflexivity.
Qed.

(** A failed read of the candidate's own entry ends the check with
    [false]. *)
Lemma isNewAttSlashable_target_error (v : validator H) (fuel : nat)
  (history : H) (sourceEpoch targetEpoch lew : Z)
  (indexedAtt : ethpb.IndexedAttestation) (e : error) :
  kv.GetLatestEpochWritten history = Ok lew ->
  kv.GetTargetData history targetEpoch = Err e ->
  isNewAttSlashable wsPeriod v fuel (Some history) sourceEpoch targetEpoch
    indexedAtt = Returns false.
Proof.
  intros Hlew Hget. unfold isNewAttSlashable.
  destruct (getDomainAndSigningRoot v _) as [[dom sr] err].
  rewrite Hlew, Hget.
  destruct (previouslyPruned wsPeriod lew targetEpoch); reflexivity.
Qed.

(** The double-vote guard, in the terms of the source. *)
Lemma isNewAttSlashable_double_vote (v : validator H) (fuel : nat)
  (history : H) (sourceEpoch targetEpoch lew : Z)
  (indexedAtt : ethpb.IndexedAttestation) (hd : option kv.HistoryData) :
  kv.GetLatestEpochWritten history = Ok lew ->
  previouslyPruned wsPeriod lew targetEpoch = false ->
  kv.GetTargetData history targetEpoch = Ok hd ->
  doubleVote hd (signingRootOf v (ethpb.Data indexedAtt)) = true ->
  isNewAttSlashable wsPeriod v fuel (Some history) sourceEpoch targetEpoch
    indexedAtt = Returns true.
Proof.
  intros Hlew Hp Hget Hdv. unfold isNewAttSlashable.
  unfold signingRootOf in Hdv.
  destruct (getDomainAndSigningRoot v _) as [[dom sr] err]. simpl in Hdv.
  rewrite Hlew, Hp, Hget, Hdv. reflexivity.
Qed.

End ClientFacts.

(** ** The pruned window *)

(** C4. When the high-water mark [lew] is read and the candidate's target
    epoch satisfies [targetEpoch <= lew - wsPeriod] in the signed 64-bit
    domain, [isNewAttSlashable] returns false, whatever the stored entries,
    the candidate's source and root, and the fuel. For epochs below 2^63 the
    signed comparison is the one on integers, and it never holds by
    underflow when [lew < wsPeriod]. With [wsPeriod = 100] and [lew = 1000]
    the candidate with target 899 is not slashable. *)
Theorem C4_pruned_window_not_slashable {H : Type} `{kv.EncHistory H}
  (wsPeriod : Z) (v : validator H) (fuel : nat) (history : H)
  (sourceEpoch targetEpoch lew : Z) (indexedAtt : ethpb.IndexedAttestation) :
  kv.GetLatestEpochWritten history = Ok lew ->
  (U64.to_int targetEpoch
     <= U64.int_sub (U64.to_int lew) (U64.to_int wsPeriod) ->
   isNewAttSlashable wsPeriod v fuel (Some history) sourceEpoch targetEpoch
     indexedAtt = Returns false)
  /\ (0 <= targetEpoch < 2 ^ 63 -> 0 <= lew < 2 ^ 63 ->
      0 <= wsPeriod < 2 ^ 63 -> targetEpoch <= lew - wsPeriod ->
      isNewAttSlashable wsPeriod v fuel (Some history) sourceEpoch
        targetEpoch indexedAtt = Returns false)
  /\ (0 <= targetEpoch < 2 ^ 63 -> 0 <= lew < 2 ^ 63 ->
      0 <= wsPeriod < 2 ^ 63 -> lew < wsPeriod ->
      previouslyPruned wsPeriod lew targetEpoch = false)
  /\ (wsPeriod = 100 -> lew = 1000 -> targetEpoch = 899 ->
      isNewAttSlashable wsPeriod v fuel (Some history) sourceEpoch
        targetEpoch indexedAtt = Returns false).
Proof.
  intros Hlew. repeat split.
  - intros Hle. apply isNewAttSlashable_pruned with (lew := lew); [done|].
    unfold previouslyPruned. by apply Z.leb_le.
  - intros Ht Hl Hw Hle.
    apply isNewAttSlashable_pruned with (lew := lew); [done|].
    rewrite previouslyPruned_small by assumption. by apply Z.leb_le.
  - intros Ht Hl Hw Hlt.
    rewrite previouslyPruned_small by assumption. apply Z.leb_gt. lia.
  - intros -> -> ->.
    apply isNewAttSlashable_pruned with (lew := 1000); [done|]. reflexivity.
Qed.

(** Target 899 with a vote left in its slot's neighbourhood, and the
    boundary target 900 = 1000 - 100, both with high-water mark 1000. *)
Lemma C4_pruned_window_witness :
  Sample.check 100 (Some Sample.leftover905) 898 899 (Sample.rootOf x02)
  = Returns false
  /\ Sample.check 0 (Some Sample.at1000) 899 900 (Sample.rootOf x02)
     = Returns false.
Proof.
  split.
  - refine (proj2 (proj2 (proj2
      (C4_pruned_window_not_slashable (H0 := MemHistory.backend 100) 100
         (Sample.client (Some Sample.leftover905) (Sample.rootOf x02) None)
         100 Sample.leftover905 898 899 1000 (Sample.att 898 899) _))) _ _ _);
      reflexivity.
  - refine (proj1 (proj2
      (C4_pruned_window_not_slashable (H0 := MemHistory.backend 100) 100
         (Sample.client (Some Sample.at1000) (Sample.rootOf x02) None)
         0 Sample.at1000 899 900 1000 (Sample.att 899 900) _)) _ _ _ _);
      first [reflexivity | lia].
Defined.

(** ** Read failures *)

(** C1, as the code has it. When the read of [latestEpochWritten] fails, or
    it succeeds and the read of the candidate's target entry fails,
    [isNewAttSlashable] returns false (not slashable), and
    [preAttSignValidations] does not reject the candidate on behalf of the
    local history: its answer is the external slasher's alone. *)
Theorem C1_read_error_is_not_slashable {H : Type} `{kv.EncHistory H}
  (wsPeriod : Z) (slasherProtection : bool) (v : validator H) (fuel : nat)
  (history : H) (indexedAtt : ethpb.IndexedAttestation) (pubKey : N)
  (e : error) :
  kv.GetLatestEpochWritten history = Err e
  \/ (exists lew, kv.GetLatestEpochWritten history = Ok lew
        /\ kv.GetTargetData history
             (ethpb.Epoch (ethpb.Target (ethpb.Data indexedAtt))) = Err e) ->
  (forall sourceEpoch,
     isNewAttSlashable wsPeriod v fuel (Some history) sourceEpoch
       (ethpb.Epoch (ethpb.Target (ethpb.Data indexedAtt))) indexedAtt
     = Returns false)
  /\ (attesterHistoryByPubKey v !! pubKey = Some (Some history) ->
      preAttSignValidations wsPeriod slasherProtection v fuel indexedAtt
        pubKey
      = Returns (externalPreCheck slasherProtection v indexedAtt)).
Proof.
  intros Hfail.
  assert (Hcheck : forall sourceEpoch,
    isNewAttSlashable wsPeriod v fuel (Some history) sourceEpoch
      (ethpb.Epoch (ethpb.Target (ethpb.Data indexedAtt))) indexedAtt
    = Returns false).
  { intros sourceEpoch. destruct Hfail as [Hlew | (lew & Hlew & Hget)].
    - eapply isNewAttSlashable_lew_error; eassumption.
    - eapply isNewAttSlashable_target_error; eassumption. }
  split; [exact Hcheck|].
  intros Hkey. unfold preAttSignValidations. rewrite Hkey, Hcheck.
  reflexivity.
Qed.

(** Slot 5 of the history does not decode; the candidate for target 5 is
    approved. *)
Lemma C1_read_error_witness :
  preAttSignValidations (H0 := MemHistory.backend 100) 100 false
    (Sample.client (Some Sample.damaged5) (Sample.rootOf x02) None) 10
    (Sample.att 4 5) 7
  = Returns None.
Proof.
  refine (proj2
    (C1_read_error_is_not_slashable (H0 := MemHistory.backend 100) 100 false
       (Sample.client (Some Sample.damaged5) (Sample.rootOf x02) None) 10
       Sample.damaged5 (Sample.att 4 5) 7 MemHistory.decodeError _) _).
  - right. exists 10. split; reflexivity.
  - reflexivity.
Defined.

(** C1, as stated, fails: the header of [MemHistory.unreadable] cannot be
    read and slot 5 of [Sample.damaged5] cannot be read, yet in both cases
    the pre-sign validation returns the nil error, that is, the candidate
    is approved for signing. *)
Lemma C1_read_error_approves :
  kv.GetLatestEpochWritten (EncHistory := MemHistory.backend 100)
    MemHistory.unreadable = Err MemHistory.decodeError
  /\ preAttSignValidations (H0 := MemHistory.backend 100) 100 false
       (Sample.client (Some MemHistory.unreadable) (Sample.rootOf x02) None)
       10 (Sample.att 4 5) 7
     = Returns None
  /\ kv.GetTargetData (EncHistory := MemHistory.backend 100)
       Sample.damaged5 5 = Err MemHistory.decodeError
  /\ preAttSignValidations (H0 := MemHistory.backend 100) 100 false
       (Sample.client (Some Sample.damaged5) (Sample.rootOf x02) None)
       10 (Sample.att 4 5) 7
     = Returns None.
Proof. repeat split; vm_compute; reflexivity. Qed.

(** ** The signing root *)

Lemma isNewAttSlashable_signer {H : Type} `{kv.EncHistory H} (wsPeriod : Z)
  (v v' : validator H) (fuel : nat) (history : option H)
  (sourceEpoch targetEpoch : Z) (indexedAtt : ethpb.IndexedAttestation) :
  signingRootOf v (ethpb.Data indexedAtt)
  = signingRootOf v' (ethpb.Data indexedAtt) ->
  isNewAttSlashable wsPeriod v fuel history sourceEpoch targetEpoch indexedAtt
  = isNewAttSlashable wsPeriod v' fuel history sourceEpoch targetEpoch
      indexedAtt.
Proof.
  unfold signingRootOf, isNewAttSlashable. intros Hsr.
  destruct history as [history|]; [|reflexivity].
  destruct (getDomainAndSigningRoot v _) as [[dom sr] err].
  destruct (getDomainAndSigningRoot v' _) as [[dom' sr'] err'].
  simpl in Hsr. subst sr'. reflexivity.
Qed.

(** C10. When [getDomainAndSigningRoot] fails (returns a non-nil error
    together with some root [sr]), [isNewAttSlashable] ends exactly as it
    does for a signer that succeeds with the same root: the error is never
    looked at. The double-vote comparison is made with [sr]: a recorded
    entry whose root differs from it makes the check return true, and the
    check neither fails nor rejects on account of the error. *)
Theorem C10_signing_root_error_ignored {H : Type} `{kv.EncHistory H}
  (wsPeriod : Z) (v : validator H) (fuel : nat) (history : option H)
  (sourceEpoch targetEpoch : Z) (indexedAtt : ethpb.IndexedAttestation)
  (domain sr : list byte) (e : error) :
  getDomainAndSigningRoot v (ethpb.Data indexedAtt) = (domain, sr, Some e) ->
  isNewAttSlashable wsPeriod v fuel history sourceEpoch targetEpoch indexedAtt
  = isNewAttSlashable wsPeriod (withSigner v (fun _ => (domain, sr, None)))
      fuel history sourceEpoch targetEpoch indexedAtt
  /\ (forall (h : H) (lew : Z) (hd : kv.HistoryData),
        history = Some h ->
        kv.GetLatestEpochWritten h = Ok lew ->
        previouslyPruned wsPeriod lew targetEpoch = false ->
        kv.GetTargetData h targetEpoch = Ok (Some hd) ->
        bytes.Equal sr (kv.SigningRoot hd) = false ->
        isNewAttSlashable wsPeriod v fuel history sourceEpoch targetEpoch
          indexedAtt = Returns true).
Proof.
  intros Hsign. split.
  - apply isNewAttSlashable_signer. unfold signingRootOf.
    rewrite Hsign. reflexivity.
  - intros h lew hd -> Hlew Hp Hget Hne.
    eapply isNewAttSlashable_double_vote; try eassumption.
    unfold signingRootOf. rewrite Hsign. simpl. rewrite Hne. reflexivity.
Qed.

(** The signer fails and hands back the all-zero root; the recorded vote for
    target 5 carries the all-zero root too, so the candidate passes the
    double-vote guard and the pre-sign validation approves it. *)
Lemma C10_signing_root_error_witness :
  isNewAttSlashable (H0 := MemHistory.backend 100) 100
    (Sample.client (Some Sample.zeroVote5) (Sample.rootOf x00)
       (Some Sample.signError))
    10 (Some Sample.zeroVote5) 4 5 (Sample.att 4 5)
  = Returns false
  /\ preAttSignValidations (H0 := MemHistory.backend 100) 100 false
       (Sample.client (Some Sample.zeroVote5) (Sample.rootOf x00)
          (Some Sample.signError))
       10 (Sample.att 4 5) 7
     = Returns None.
Proof.
  split.
  - rewrite (proj1
      (C10_signing_root_error_ignored (H0 := MemHistory.backend 100) 100
         (Sample.client (Some Sample.zeroVote5) (Sample.rootOf x00)
            (Some Sample.signError))
         10 (Some Sample.zeroVote5) 4 5 (Sample.att 4 5) []
         (Sample.rootOf x00) Sample.signError eq_refl)).
    vm_compute. reflexivity.
  - vm_compute. reflexivity.
Defined.

(** ** The in-memory history obeys the laws *)

Lemma MemHistory_laws (wsPeriod : Z) :
  @kv.EncHistoryLaws wsPeriod MemHistory.t (MemHistory.backend wsPeriod).
Proof.
  split.
  - intros h h' i j d Hset Hij. simpl in *. inversion Hset; subst; clear Hset.
    simpl. rewrite Hij.
    destruct d as [hd|].
    + rewrite lookup_insert_eq. reflexivity.
    + rewrite lookup_delete_eq. reflexivity.
  - intros h h' i j d Hset Hij. simpl in *. inversion Hset; subst; clear Hset.
    simpl. destruct d as [hd|].
    + rewrite lookup_insert_ne by congruence. reflexivity.
    + rewrite lookup_delete_ne by congruence. reflexivity.
  - intros h h' i d Hset. simpl in *. inversion Hset; subst. reflexivity.
  - intros h h' e Hset. simpl in *. inversion Hset; subst. reflexivity.
  - intros h h' e j Hset. simpl in *. inversion Hset; subst. reflexivity.
Qed.

(** Recording on a history whose header decodes always succeeds. *)
Lemma MemHistory_record_succeeds (wsPeriod : Z) (h : MemHistory.t)
  (lew sourceEpoch targetEpoch : Z) :
  MemHistory.header h = Some lew ->
  exists h' : MemHistory.t,
    markAttestationForTargetEpoch (H0 := MemHistory.backend wsPeriod)
      wsPeriod (Some h) sourceEpoch targetEpoch = Some h'.
Proof.
  intros Hh. unfold markAttestationForTargetEpoch. simpl. rewrite Hh.
  destruct (targetEpoch >? lew); [|eauto].
  assert (Hloop : forall n g i, exists g',
    evictLoop (H0 := MemHistory.backend wsPeriod) wsPeriod n g targetEpoch
      (U64.add lew wsPeriod) i = Ok g').
  { induction n as [|n IH]; intros g i; simpl; [eauto|].
    destruct ((i <? targetEpoch) && (i <=? U64.add lew wsPeriod)); eauto. }
  destruct (Hloop (Z.to_nat (targetEpoch - lew)) h (U64.add lew 1))
    as [g' ->].
  eauto.
Qed.

(** ** The history updater *)

Section Updater.

Context {H : Type} {B : kv.EncHistory H}.

Variable wsPeriod : Z.

(** Extra iterations change nothing: the bound of [evictLoop] never cuts
    the loop of the source short. *)
Lemma evictLoop_fuel (n m : nat) (history : H) (targetEpoch maxToWrite i : Z) :
  0 <= i -> targetEpoch < 2 ^ 64 ->
  (Z.to_nat (targetEpoch - i) <= n)%nat ->
  (Z.to_nat (targetEpoch - i) <= m)%nat ->
  evictLoop wsPeriod n history targetEpoch maxToWrite i
  = evictLoop wsPeriod m history targetEpoch maxToWrite i.
Proof.
  revert m history i.
  induction n as [|n IH]; intros m history i Hi Ht Hn Hm.
  - destruct m as [|m]; [reflexivity|]. simpl.
    replace (i <? targetEpoch) with false by (symmetry; apply Z.ltb_ge; lia).
    reflexivity.
  - destruct m as [|m]; simpl.
    + replace (i <? targetEpoch) with false by (symmetry; apply Z.ltb_ge; lia).
      reflexivity.
    + destruct (i <? targetEpoch) eqn:Hlt; [|reflexivity].
      apply Z.ltb_lt in Hlt.
      destruct (i <=? maxToWrite); [|reflexivity]. simpl.
      destruct (kv.SetTargetData history (i mod wsPeriod) None); [|reflexivity].
      rewrite add_small by lia. apply IH; lia.
Qed.

(** What a successful call of [markAttestationForTargetEpoch] went
    through. *)
Lemma markAttestationForTargetEpoch_inv (history h' : H)
  (sourceEpoch targetEpoch : Z) :
  markAttestationForTargetEpoch wsPeriod (Some history) sourceEpoch
    targetEpoch = Some h' ->
  exists (lew : Z) (mid : H),
    kv.GetLatestEpochWritten history = Ok lew
    /\ ((targetEpoch > lew
         /\ exists cleared : H,
              evictLoop wsPeriod (Z.to_nat (targetEpoch - lew)) history
                targetEpoch (U64.add lew wsPeriod) (U64.add lew 1)
              = Ok cleared
              /\ kv.SetLatestEpochWritten cleared targetEpoch = Ok mid)
        \/ (targetEpoch <= lew /\ mid = history))
    /\ kv.SetTargetData mid (targetEpoch mod wsPeriod)
         (Some (kv.mkHistoryData sourceEpoch [])) = Ok h'.
Proof.
  unfold markAttestationForTargetEpoch. intros Hmark.
  destruct (kv.GetLatestEpochWritten history) as [lew|e]; [|discriminate].
  exists lew.
  destruct (targetEpoch >? lew) eqn:Hgt.
  - apply Z.gtb_lt in Hgt.
    destruct (evictLoop _ _ _ _ _ _) as [cleared|e] eqn:Hloop;
      [|discriminate].
    destruct (kv.SetLatestEpochWritten cleared targetEpoch) as [mid|e]
      eqn:Hset; [|discriminate].
    destruct (kv.SetTargetData mid _ _) as [h''|e] eqn:Hlast; [|discriminate].
    exists mid. split; [reflexivity|]. split.
    + left. split; [lia|]. exists cleared.
      split; first [reflexivity | assumption].
    + congruence.
  - assert (targetEpoch <= lew).
    { destruct (Z.gtb_spec targetEpoch lew); [discriminate | lia]. }
    destruct (kv.SetTargetData history _ _) as [h''|e] eqn:Hlast;
      [|discriminate].
    exists history. split; [reflexivity|]. split.
    + right. split; [assumption | reflexivity].
    + congruence.
Qed.

Context {L : kv.EncHistoryLaws wsPeriod H}.

Lemma evictLoop_lew (n : nat) (history cleared : H)
  (targetEpoch maxToWrite i : Z) :
  evictLoop wsPeriod n history targetEpoch maxToWrite i = Ok cleared ->
  kv.GetLatestEpochWritten cleared = kv.GetLatestEpochWritten history.
Proof.
  revert history i. induction n as [|n IH]; intros history i; simpl.
  - intros [= ->]. reflexivity.
  - destruct ((i <? targetEpoch) && (i <=? maxToWrite)).
    + destruct (kv.SetTargetData history (i mod wsPeriod) None)
        as [history'|e] eqn:Hset; [|discriminate].
      intros Hloop. rewrite (IH _ _ Hloop).
      eapply kv.lew_set_target; eassumption.
    + intros [= ->]. reflexivity.
Qed.

(** The slots after the clearing loop: cleared where a counter value fell,
    untouched elsewhere. *)
Lemma evictLoop_slots (n : nat) (history cleared : H)
  (targetEpoch maxToWrite i : Z) :
  0 <= i -> targetEpoch < 2 ^ 64 ->
  (Z.to_nat (targetEpoch - i) <= n)%nat ->
  evictLoop wsPeriod n history targetEpoch maxToWrite i = Ok cleared ->
  forall j : Z,
    (kv.GetTargetData cleared j = Ok None
     \/ kv.GetTargetData cleared j = kv.GetTargetData history j)
    /\ ((exists k, i <= k < targetEpoch /\ k <= maxToWrite
                   /\ k mod wsPeriod = j mod wsPeriod) ->
        kv.GetTargetData cleared j = Ok None)
    /\ (~ (exists k, i <= k < targetEpoch /\ k <= maxToWrite
                     /\ k mod wsPeriod = j mod wsPeriod) ->
        kv.GetTargetData cleared j = kv.GetTargetData history j).
Proof.
  revert history i.
  induction n as [|n IH]; intros history i Hi Ht Hn; simpl.
  - intros [= ->] j. split; [by right|]. split; [|done].
    intros (k & Hk & _). lia.
  - destruct (i <? targetEpoch) eqn:Hlt; simpl.
    2:{ apply Z.ltb_ge in Hlt. intros [= ->] j.
        split; [by right|]. split; [|done]. intros (k & Hk & _). lia. }
    apply Z.ltb_lt in Hlt.
    destruct (i <=? maxToWrite) eqn:Hle.
    2:{ apply Z.leb_gt in Hle. intros [= ->] j.
        split; [by right|]. split; [|done]. intros (k & Hk & Hm & _). lia. }
    apply Z.leb_le in Hle.
    destruct (kv.SetTargetData history (i mod wsPeriod) None)
      as [history'|e] eqn:Hset; [|discriminate].
    rewrite add_small by lia. intros Hloop j.
    destruct (IH history' (i + 1) ltac:(lia) Ht ltac:(lia) Hloop j)
      as (Hany & Hin & Hout).
    assert (Hhere : j mod wsPeriod = i mod wsPeriod ->
                    kv.GetTargetData history' j = Ok None).
    { intros Hji. eapply kv.get_set_target_eq; [exact Hset|].
      rewrite Zmod_mod. exact Hji. }
    assert (Hother : j mod wsPeriod <> i mod wsPeriod ->
                     kv.GetTargetData history' j = kv.GetTargetData history j).
    { intros Hji. eapply kv.get_set_target_ne; [exact Hset|].
      rewrite Zmod_mod. exact Hji. }
    destruct (Z.eq_dec (j mod wsPeriod) (i mod wsPeriod)) as [Hji|Hji].
    + assert (Hnone : kv.GetTargetData cleared j = Ok None).
      { destruct Hany as [Hnone|Hsame]; [exact Hnone|].
        rewrite Hsame. auto. }
      split; [by left|]. split; [auto|].
      intros Hno. exfalso. apply Hno. exists i. split; [lia|]. auto.
    + rewrite <- (Hother Hji). split; [exact Hany|]. split.
      * intros (k & Hk & Hm & Hkj). apply Hin. exists k.
        assert (k <> i) by congruence. split; [lia|]. auto.
      * intros Hno. apply Hout. intros (k & Hk & Hm & Hkj). apply Hno.
        exists k. split; [lia|]. auto.
Qed.

(** The high-water mark after a successful update. *)
Lemma markAttestationForTargetEpoch_lew (history h' : H)
  (sourceEpoch targetEpoch lew : Z) :
  kv.GetLatestEpochWritten history = Ok lew ->
  markAttestationForTargetEpoch wsPeriod (Some history) sourceEpoch
    targetEpoch = Some h' ->
  kv.GetLatestEpochWritten h' = Ok (Z.max lew targetEpoch).
Proof.
  intros Hlew Hmark.
  apply markAttestationForTargetEpoch_inv in Hmark
    as (lew0 & mid & Hlew0 & Hslide & Hlast).
  assert (lew0 = lew) by congruence. subst lew0.
  rewrite (kv.lew_set_target _ _ _ _ Hlast).
  destruct Hslide as [(Hgt & cleared & Hloop & Hset) | (Hle & ->)].
  - rewrite (kv.lew_set_lew _ _ _ Hset). f_equal. lia.
  - rewrite Hlew. f_equal. lia.
Qed.

(** The entry of the recorded target epoch after a successful update: the
    source epoch and no signing root. *)
Lemma markAttestationForTargetEpoch_target (history h' : H)
  (sourceEpoch targetEpoch : Z) :
  markAttestationForTargetEpoch wsPeriod (Some history) sourceEpoch
    targetEpoch = Some h' ->
  kv.GetTargetData h' targetEpoch
  = Ok (Some (kv.mkHistoryData sourceEpoch [])).
Proof.
  intros Hmark.
  apply markAttestationForTargetEpoch_inv in Hmark
    as (lew & mid & _ & _ & Hlast).
  eapply kv.get_set_target_eq; [exact Hlast|].
  rewrite Zmod_mod. reflexivity.
Qed.

End Updater.

(** C9. Whenever [markAttestationForTargetEpoch] returns a history, be the
    target epoch ahead of the high-water mark or not, the high-water mark of
    the result is at least the one of the input: it is the larger of the old
    mark and the target epoch. *)
Theorem C9_latest_epoch_written_monotone {H : Type} {B : kv.EncHistory H}
  (wsPeriod : Z) (L : kv.EncHistoryLaws wsPeriod H) (history h' : H)
  (sourceEpoch targetEpoch lew : Z) :
  kv.GetLatestEpochWritten history = Ok lew ->
  markAttestationForTargetEpoch wsPeriod (Some history) sourceEpoch
    targetEpoch = Some h' ->
  exists lew' : Z,
    kv.GetLatestEpochWritten h' = Ok lew'
    /\ lew <= lew'
    /\ lew' = Z.max lew targetEpoch.
Proof.
  intros Hlew Hmark. exists (Z.max lew targetEpoch).
  split; [|split; [lia | reflexivity]].
  eapply markAttestationForTargetEpoch_lew; eassumption.
Qed.

(** A target ahead of the high-water mark 1000 and one behind it. *)
Lemma C9_latest_epoch_written_witness :
  (exists h' lew',
     Sample.record (Some Sample.at1000) 1049 1050 = Some h'
     /\ kv.GetLatestEpochWritten (EncHistory := MemHistory.backend 100) h'
        = Ok lew'
     /\ 1000 <= lew')
  /\ (exists h' lew',
        Sample.record (Some Sample.at1000) 949 950 = Some h'
        /\ kv.GetLatestEpochWritten (EncHistory := MemHistory.backend 100) h'
           = Ok lew'
        /\ 1000 <= lew').
Proof.
  split.
  - destruct (Sample.record (Some Sample.at1000) 1049 1050) as [h'|] eqn:Hrec;
      [|by vm_compute in Hrec].
    destruct (C9_latest_epoch_written_monotone (B := MemHistory.backend 100)
                100 (MemHistory_laws 100) Sample.at1000 h' 1049 1050 1000
                eq_refl Hrec) as (lew' & Hlew' & Hle & _).
    exists h', lew'. split; [reflexivity|]. split; assumption.
  - destruct (Sample.record (Some Sample.at1000) 949 950) as [h'|] eqn:Hrec;
      [|by vm_compute in Hrec].
    destruct (C9_latest_epoch_written_monotone (B := MemHistory.backend 100)
                100 (MemHistory_laws 100) Sample.at1000 h' 949 950 1000
                eq_refl Hrec) as (lew' & Hlew' & Hle & _).
    exists h', lew'. split; [reflexivity|]. split; assumption.
Defined.

(** C7, as the code has it. For a call with [targetEpoch > lew] that
    returns a history: the high-water mark becomes [targetEpoch]; the slot of
    [targetEpoch] holds the new entry (the source epoch, no signing root);
    every other slot is Absent exactly when some epoch [i] with
    [lew < i < targetEpoch] and [i <= lew + wsPeriod] (the sum taken on
    [uint64]) falls on it, and is unchanged otherwise. The bound
    [lew + wsPeriod] is inclusive. *)
Theorem C7_window_slide {H : Type} {B : kv.EncHistory H} (wsPeriod : Z)
  (L : kv.EncHistoryLaws wsPeriod H) (history h' : H)
  (sourceEpoch targetEpoch lew : Z) :
  0 < wsPeriod -> U64.In lew -> U64.In targetEpoch ->
  kv.GetLatestEpochWritten history = Ok lew ->
  lew < targetEpoch ->
  markAttestationForTargetEpoch wsPeriod (Some history) sourceEpoch
    targetEpoch = Some h' ->
  kv.GetLatestEpochWritten h' = Ok targetEpoch
  /\ kv.GetTargetData h' targetEpoch
     = Ok (Some (kv.mkHistoryData sourceEpoch []))
  /\ (forall j : Z,
        j mod wsPeriod <> targetEpoch mod wsPeriod ->
        (evictedBy wsPeriod lew targetEpoch j ->
         kv.GetTargetData h' j = Ok None)
        /\ (~ evictedBy wsPeriod lew targetEpoch j ->
            kv.GetTargetData h' j = kv.GetTargetData history j)).
Proof.
  intros Hw [Hl0 Hl1] [Ht0 Ht1] Hlew Hlt Hmark.
  split.
  { rewrite (markAttestationForTargetEpoch_lew wsPeriod _ _ _ _ _ Hlew Hmark).
    f_equal. lia. }
  split.
  { eapply markAttestationForTargetEpoch_target; eassumption. }
  intros j Hj.
  apply markAttestationForTargetEpoch_inv in Hmark
    as (lew0 & mid & Hlew0 & Hslide & Hlast).
  assert (lew0 = lew) by congruence. subst lew0.
  destruct Hslide as [(_ & cleared & Hloop & Hset) | (Hle & _)]; [|lia].
  rewrite (add_small lew 1) in Hloop by lia.
  assert (Hfinal : kv.GetTargetData h' j = kv.GetTargetData cleared j).
  { rewrite (kv.get_set_target_ne _ _ _ j _ Hlast)
      by (rewrite Zmod_mod; exact Hj).
    eapply kv.get_set_lew; eassumption. }
  rewrite Hfinal.
  pose proof (evictLoop_slots wsPeriod (Z.to_nat (targetEpoch - lew)) history
                cleared targetEpoch (U64.add lew wsPeriod) (lew + 1)) as Hs.
  destruct (Hs ltac:(lia) Ht1 ltac:(lia) Hloop j) as (_ & Hin & Hout).
  split.
  - intros (i & Hi & Hm & Hij). apply Hin. exists i.
    split; [lia|]. split; assumption.
  - intros Hno. apply Hout. intros (i & Hi & Hm & Hij). apply Hno.
    exists i. split; [lia|]. split; assumption.
Qed.

(** Recording target 1050 at high-water mark 1000 moves the mark to 1050
    and clears slot 5, which held the vote of epoch 905. *)
Lemma C7_window_slide_witness :
  exists h' : MemHistory.t,
    Sample.record (Some Sample.leftover905) 1049 1050 = Some h'
    /\ kv.GetLatestEpochWritten (EncHistory := MemHistory.backend 100) h'
       = Ok 1050
    /\ kv.GetTargetData (EncHistory := MemHistory.backend 100)
         Sample.leftover905 1005
       = Ok (Some (kv.mkHistoryData 904 (Sample.rootOf x01)))
    /\ kv.GetTargetData (EncHistory := MemHistory.backend 100) h' 1005
       = Ok None.
Proof.
  destruct (Sample.record (Some Sample.leftover905) 1049 1050) as [h'|]
    eqn:Hrec; [|by vm_compute in Hrec].
  exists h'. split; [reflexivity|].
  destruct (C7_window_slide (B := MemHistory.backend 100) 100
              (MemHistory_laws 100) Sample.leftover905 h' 1049 1050 1000)
    as (Hlew & _ & Hslots).
  - lia.
  - unfold U64.In. lia.
  - unfold U64.In. lia.
  - reflexivity.
  - lia.
  - exact Hrec.
  - split; [exact Hlew|]. split; [reflexivity|].
    apply (Hslots 1005); [by vm_compute|].
    exists 1005. split; [lia|]. split; by vm_compute.
Defined.

(** C7, as stated, fails. With [wsPeriod = 100] and high-water mark 1000,
    recording target epoch 1150 clears slot 0, the slot of epoch 1100
    = [lew + wsPeriod], although no epoch strictly between 1000 and
    [min(1150, 1100)] falls on that slot and it is not the slot of the new
    entry. *)
Lemma C7_bound_is_inclusive :
  kv.GetTargetData (EncHistory := MemHistory.backend 100) Sample.at1000 1100
  = Ok (Some (kv.mkHistoryData 999 (Sample.rootOf x01)))
  /\ ~ evictedBySpec 100 1000 1150 1100
  /\ 1100 mod 100 <> 1150 mod 100
  /\ exists h' : MemHistory.t,
       Sample.record (Some Sample.at1000) 1149 1150 = Some h'
       /\ kv.GetTargetData (EncHistory := MemHistory.backend 100) h' 1100
          = Ok None.
Proof.
  split; [by vm_compute|]. split.
  { intros (i & Hi & Hm). change (1100 mod 100) with 0 in Hm.
    change (Z.min 1150 (1000 + 100)) with 1100 in Hi.
    pose proof (Z.div_mod i 100 ltac:(lia)) as Hdiv. rewrite Hm in Hdiv.
    lia. }
  split; [by vm_compute|].
  destruct (Sample.record (Some Sample.at1000) 1149 1150) as [h'|] eqn:Hrec;
    [|by vm_compute in Hrec].
  exists h'. split; [reflexivity|].
  vm_compute in Hrec. injection Hrec as <-. by vm_compute.
Qed.

(** ** Stores of 32-byte roots *)

Lemma pad32_id (root : list byte) :
  length root = 32%nat -> MemHistory.pad32 root = root.
Proof.
  intros Hlen. unfold MemHistory.pad32.
  apply take_app_length'. symmetry. exact Hlen.
Qed.

(** A store that reads every entry back as written is in particular a
    store of 32-byte roots. *)
Lemma EncHistoryLaws_weaken {H : Type} {B : kv.EncHistory H} (wsPeriod : Z) :
  kv.EncHistoryLaws wsPeriod H -> kv.EncHistoryLaws32 wsPeriod H.
Proof.
  intros L. split.
  - intros h h' i j d Hset Hij. exists d.
    split; [|split; [reflexivity | intros _; reflexivity]].
    eapply kv.get_set_target_eq; eassumption.
  - intros h h' i j Hset Hij. eapply kv.get_set_target_eq; eassumption.
  - apply kv.get_set_target_ne.
  - apply kv.lew_set_target.
  - apply kv.lew_set_lew.
  - apply kv.get_set_lew.
Qed.

Lemma MemHistory_laws32 (wsPeriod : Z) :
  @kv.EncHistoryLaws32 wsPeriod MemHistory.t (MemHistory.backend32 wsPeriod).
Proof.
  split.
  - intros h h' i j d Hset Hij. simpl in *. inversion Hset; subst; clear Hset.
    simpl. rewrite Hij, lookup_insert_eq. eexists.
    split; [reflexivity|]. split; [reflexivity|].
    intros Hlen. rewrite (pad32_id _ Hlen). destruct d; reflexivity.
  - intros h h' i j Hset Hij. simpl in *. inversion Hset; subst; clear Hset.
    simpl. rewrite Hij, lookup_delete_eq. reflexivity.
  - intros h h' i j d Hset Hij. simpl in *. inversion Hset; subst; clear Hset.
    simpl. destruct d as [hd|].
    + rewrite lookup_insert_ne by congruence. reflexivity.
    + rewrite lookup_delete_ne by congruence. reflexivity.
  - intros h h' i d Hset. simpl in *. inversion Hset; subst. reflexivity.
  - intros h h' e Hset. simpl in *. inversion Hset; subst. reflexivity.
  - intros h h' e j Hset. simpl in *. inversion Hset; subst. reflexivity.
Qed.

Section Updater32.

Context {H : Type} {B : kv.EncHistory H}.

Variable wsPeriod : Z.

Context {L : kv.EncHistoryLaws32 wsPeriod H}.

Lemma evictLoop_lew32 (n : nat) (history cleared : H)
  (targetEpoch maxToWrite i : Z) :
  evictLoop wsPeriod n history targetEpoch maxToWrite i = Ok cleared ->
  kv.GetLatestEpochWritten cleared = kv.GetLatestEpochWritten history.
Proof.
  revert history i. induction n as [|n IH]; intros history i; simpl.
  - intros [= ->]. reflexivity.
  - destruct ((i <? targetEpoch) && (i <=? maxToWrite)).
    + destruct (kv.SetTargetData history (i mod wsPeriod) None)
        as [history'|e] eqn:Hset; [|discriminate].
      intros Hloop. rewrite (IH _ _ Hloop).
      eapply kv.lew_set_target32; eassumption.
    + intros [= ->]. reflexivity.
Qed.

(** The high-water mark after a successful update, on a store of 32-byte
    roots. *)
Lemma markAttestationForTargetEpoch_lew32 (history h' : H)
  (sourceEpoch targetEpoch lew : Z) :
  kv.GetLatestEpochWritten history = Ok lew ->
  markAttestationForTargetEpoch wsPeriod (Some history) sourceEpoch
    targetEpoch = Some h' ->
  kv.GetLatestEpochWritten h' = Ok (Z.max lew targetEpoch).
Proof.
  intros Hlew Hmark.
  apply markAttestationForTargetEpoch_inv in Hmark
    as (lew0 & mid & Hlew0 & Hslide & Hlast).
  assert (lew0 = lew) by congruence. subst lew0.
  rewrite (kv.lew_set_target32 _ _ _ _ Hlast).
  destruct Hslide as [(Hgt & cleared & Hloop & Hset) | (Hle & ->)].
  - rewrite (kv.lew_set_lew32 _ _ _ Hset). f_equal. lia.
  - rewrite Hlew. f_equal. lia.
Qed.

(** The slot of the recorded target epoch after a successful update holds
    an entry with the recorded source epoch; its signing root is the
    store's. *)
Lemma markAttestationForTargetEpoch_stored32 (history h' : H)
  (sourceEpoch targetEpoch j : Z) :
  markAttestationForTargetEpoch wsPeriod (Some history) sourceEpoch
    targetEpoch = Some h' ->
  j mod wsPeriod = targetEpoch mod wsPeriod ->
  exists stored : kv.HistoryData,
    kv.GetTargetData h' j = Ok (Some stored)
    /\ kv.Source stored = sourceEpoch.
Proof.
  intros Hmark Hj.
  apply markAttestationForTargetEpoch_inv in Hmark
    as (lew & mid & _ & _ & Hlast).
  destruct (kv.get_set_vote32 _ _ _ j _ Hlast) as (stored & Hget & Hsrc & _).
  - rewrite Zmod_mod. exact Hj.
  - exists stored. split; [exact Hget | exact Hsrc].
Qed.

End Updater32.

(** ** Double votes after an update *)

(** C2, as the code has it. [markAttestationForTargetEpoch] takes no signing
    root, so the root of the recorded vote never reaches the store: the
    entry written for [targetEpoch] carries the source epoch and no root.
    After a successful update the slot of [targetEpoch] holds an entry with
    that source epoch, and the double-vote rule flags a later candidate for
    the same target exactly when the candidate's signing root differs from
    the root the store reads back for that entry, whatever the root of the
    recorded vote was; for such a candidate not behind the retained window
    of the updated history [isNewAttSlashable] returns true. *)
Theorem C2_double_vote_after_record {H : Type} {B : kv.EncHistory H}
  (wsPeriod : Z) (L : kv.EncHistoryLaws32 wsPeriod H) (history h' : H)
  (recordedSource targetEpoch : Z) :
  0 < wsPeriod ->
  markAttestationForTargetEpoch wsPeriod (Some history) recordedSource
    targetEpoch = Some h' ->
  exists stored : kv.HistoryData,
    kv.GetTargetData h' targetEpoch = Ok (Some stored)
    /\ kv.Source stored = recordedSource
    /\ (forall sr : list byte,
          doubleVote (Some stored) sr = true <-> sr <> kv.SigningRoot stored)
    /\ (forall (v : validator H) (fuel : nat) (sourceEpoch lew' : Z)
               (indexedAtt : ethpb.IndexedAttestation),
          kv.GetLatestEpochWritten h' = Ok lew' ->
          previouslyPruned wsPeriod lew' targetEpoch = false ->
          signingRootOf v (ethpb.Data indexedAtt) <> kv.SigningRoot stored ->
          isNewAttSlashable wsPeriod v fuel (Some h') sourceEpoch targetEpoch
            indexedAtt = Returns true).
Proof.
  intros Hw Hmark.
  destruct (markAttestationForTargetEpoch_stored32 wsPeriod history h'
              recordedSource targetEpoch targetEpoch Hmark eq_refl)
    as (stored & Hget & Hsrc).
  exists stored. split; [exact Hget|]. split; [exact Hsrc|]. split.
  { intros sr. apply doubleVote_iff. }
  intros v fuel sourceEpoch lew' indexedAtt Hlew Hp Hne.
  eapply isNewAttSlashable_double_vote; try eassumption.
  apply doubleVote_iff. exact Hne.
Qed.

(** On the store of 32-byte roots a vote for target 5 is recorded on a fresh
    history and read back with the all-zero root; another candidate for
    target 5, with a root that is not all zero, is a double vote. *)
Lemma C2_double_vote_witness :
  exists h' : MemHistory.t,
    Sample.record32 (Some MemHistory.fresh) 4 5 = Some h'
    /\ Sample.getTarget32 h' 5
       = Ok (Some (kv.mkHistoryData 4 (Sample.rootOf x00)))
    /\ Sample.check32 0 (Some h') 3 5 (Sample.rootOf x02) = Returns true.
Proof.
  destruct (Sample.record32 (Some MemHistory.fresh) 4 5) as [h'|] eqn:Hrec;
    [|by vm_compute in Hrec].
  exists h'. split; [reflexivity|].
  destruct (C2_double_vote_after_record (B := MemHistory.backend32 100) 100
              (MemHistory_laws32 100) MemHistory.fresh h' 4 5 ltac:(lia) Hrec)
    as (stored & Hget & _ & _ & Hcheck).
  vm_compute in Hrec. injection Hrec as <-.
  assert (Hstored : stored = kv.mkHistoryData 4 (Sample.rootOf x00)).
  { vm_compute in Hget. injection Hget as <-. reflexivity. }
  subst stored. split; [by vm_compute|].
  apply (Hcheck _ 0%nat 3 5).
  - reflexivity.
  - reflexivity.
  - discriminate.
Defined.

(** C2, as stated, fails. A vote for target epoch 5 with the signing root
    [R = rootOf x01] is recorded on a fresh history; the updater is not
    given [R]. On the store that reads entries back as written the entry
    has no root, and on the store of 32-byte roots it has the all-zero
    root. On both, the candidate for target 5 with the same root [R] is
    flagged by the double-vote rule and [isNewAttSlashable] returns true;
    on the second, the candidate with the all-zero root, which differs from
    [R], is not flagged. *)
Lemma C2_same_root_is_flagged :
  (exists h' : MemHistory.t,
     Sample.record (Some MemHistory.fresh) 4 5 = Some h'
     /\ Sample.getTarget h' 5 = Ok (Some (kv.mkHistoryData 4 []))
     /\ doubleVote (Some (kv.mkHistoryData 4 [])) (Sample.rootOf x01) = true
     /\ Sample.check 10 (Some h') 4 5 (Sample.rootOf x01) = Returns true)
  /\ (exists h' : MemHistory.t,
        Sample.record32 (Some MemHistory.fresh) 4 5 = Some h'
        /\ Sample.getTarget32 h' 5
           = Ok (Some (kv.mkHistoryData 4 (Sample.rootOf x00)))
        /\ doubleVote (Some (kv.mkHistoryData 4 (Sample.rootOf x00)))
             (Sample.rootOf x01) = true
        /\ Sample.check32 10 (Some h') 4 5 (Sample.rootOf x01) = Returns true
        /\ doubleVote (Some (kv.mkHistoryData 4 (Sample.rootOf x00)))
             (Sample.rootOf x00) = false
        /\ Sample.check32 10 (Some h') 4 5 (Sample.rootOf x00)
           = Returns false).
Proof.
  split.
  - destruct (Sample.record (Some MemHistory.fresh) 4 5) as [h'|] eqn:Hrec;
      [|by vm_compute in Hrec].
    exists h'. split; [reflexivity|].
    vm_compute in Hrec. injection Hrec as <-.
    split; [by vm_compute|]. split; [by vm_compute|]. by vm_compute.
  - destruct (Sample.record32 (Some MemHistory.fresh) 4 5) as [h'|] eqn:Hrec;
      [|by vm_compute in Hrec].
    exists h'. split; [reflexivity|].
    vm_compute in Hrec. injection Hrec as <-.
    split; [by vm_compute|]. split; [by vm_compute|].
    split; [by vm_compute|]. split; [by vm_compute|]. by vm_compute.
Qed.

(** C3, as the code has it. If [isNewAttSlashable] returned false for a
    candidate and the candidate is then recorded with success, the slot of
    its target holds an entry with its source epoch and with the signing
    root the store reads back for an entry written without one (the updater
    is given no root). If the candidate's signing root differs from that
    root and its target is not behind the retained window of the updated
    history (the guard [int(targetEpoch) <= int(lew') - int(wsPeriod)] is
    false for the new high-water mark [lew']), then [isNewAttSlashable] on
    the updated history returns true for the same candidate. *)
Theorem C3_recorded_candidate_is_slashable {H : Type} {B : kv.EncHistory H}
  (wsPeriod : Z) (L : kv.EncHistoryLaws32 wsPeriod H) (v : validator H)
  (fuel : nat) (history h' : H) (sourceEpoch targetEpoch lew' : Z)
  (indexedAtt : ethpb.IndexedAttestation) :
  0 < wsPeriod ->
  isNewAttSlashable wsPeriod v fuel (Some history) sourceEpoch targetEpoch
    indexedAtt = Returns false ->
  markAttestationForTargetEpoch wsPeriod (Some history) sourceEpoch
    targetEpoch = Some h' ->
  kv.GetLatestEpochWritten h' = Ok lew' ->
  previouslyPruned wsPeriod lew' targetEpoch = false ->
  exists stored : kv.HistoryData,
    kv.GetTargetData h' targetEpoch = Ok (Some stored)
    /\ kv.Source stored = sourceEpoch
    /\ (signingRootOf v (ethpb.Data indexedAtt) <> kv.SigningRoot stored ->
        isNewAttSlashable wsPeriod v fuel (Some h') sourceEpoch targetEpoch
          indexedAtt = Returns true).
Proof.
  intros Hw _ Hmark Hlew Hp.
  destruct (markAttestationForTargetEpoch_stored32 wsPeriod history h'
              sourceEpoch targetEpoch targetEpoch Hmark eq_refl)
    as (stored & Hget & Hsrc).
  exists stored. split; [exact Hget|]. split; [exact Hsrc|].
  intros Hne. eapply isNewAttSlashable_double_vote; try eassumption.
  apply doubleVote_iff. exact Hne.
Qed.

(** On the store of 32-byte roots, the candidate (source 999, target 1001)
    with a root that is not all zero, at high-water mark 1000: not slashable
    before it is recorded, slashable afterwards. *)
Lemma C3_recorded_candidate_witness :
  exists h' : MemHistory.t,
    Sample.check32 10 (Some Sample.at1000) 999 1001 (Sample.rootOf x02)
    = Returns false
    /\ Sample.record32 (Some Sample.at1000) 999 1001 = Some h'
    /\ isNewAttSlashable (H0 := MemHistory.backend32 100) 100
         (Sample.client (Some Sample.at1000) (Sample.rootOf x02) None) 10
         (Some h') 999 1001 (Sample.att 999 1001)
       = Returns true.
Proof.
  destruct (Sample.record32 (Some Sample.at1000) 999 1001) as [h'|] eqn:Hrec;
    [|by vm_compute in Hrec].
  exists h'. split; [by vm_compute|]. split; [reflexivity|].
  destruct (C3_recorded_candidate_is_slashable
              (B := MemHistory.backend32 100) 100 (MemHistory_laws32 100)
              (Sample.client (Some Sample.at1000) (Sample.rootOf x02) None)
              10 Sample.at1000 h' 999 1001 1001 (Sample.att 999 1001))
    as (stored & Hget & _ & Hcheck).
  - lia.
  - by vm_compute.
  - exact Hrec.
  - vm_compute in Hrec. injection Hrec as <-. reflexivity.
  - reflexivity.
  - apply Hcheck.
    vm_compute in Hrec. injection Hrec as <-.
    vm_compute in Hget. injection Hget as <-. discriminate.
Defined.

(** C3, as stated, fails. With [wsPeriod = 100] and high-water mark 1000 the
    candidate (source 4, target 5) is not slashable (its target is behind the
    window); it is recorded with success; and it is still not slashable on
    the updated history. The same happens on a history whose header cannot
    be read: the check returns false, nothing is recorded, and the check on
    the nil result returns false. And on the store of 32-byte roots the
    candidate (source 0, target 1) with the all-zero root is not slashable
    on a fresh history, is recorded with success, is not behind the window,
    and is still not slashable: the entry read back carries its root. *)
Lemma C3_pruned_candidate_stays_safe :
  (exists h' : MemHistory.t,
     Sample.check 10 (Some Sample.at1000) 4 5 (Sample.rootOf x02)
     = Returns false
     /\ Sample.record (Some Sample.at1000) 4 5 = Some h'
     /\ Sample.check 10 (Some h') 4 5 (Sample.rootOf x02) = Returns false)
  /\ Sample.check 10 (Some MemHistory.unreadable) 4 5 (Sample.rootOf x02)
     = Returns false
  /\ Sample.record (Some MemHistory.unreadable) 4 5 = None
  /\ Sample.check 10 None 4 5 (Sample.rootOf x02) = Returns false
  /\ (exists h' : MemHistory.t,
        Sample.check32 10 (Some MemHistory.fresh) 0 1 (Sample.rootOf x00)
        = Returns false
        /\ Sample.record32 (Some MemHistory.fresh) 0 1 = Some h'
        /\ kv.GetLatestEpochWritten (EncHistory := MemHistory.backend32 100)
             h' = Ok 1
        /\ previouslyPruned 100 1 1 = false
        /\ Sample.check32 10 (Some h') 0 1 (Sample.rootOf x00)
           = Returns false).
Proof.
  split.
  { destruct (Sample.record (Some Sample.at1000) 4 5) as [h'|] eqn:Hrec;
      [|by vm_compute in Hrec].
    exists h'. split; [by vm_compute|]. split; [reflexivity|].
    vm_compute in Hrec. injection Hrec as <-. by vm_compute. }
  split; [by vm_compute|]. split; [by vm_compute|]. split; [by vm_compute|].
  destruct (Sample.record32 (Some MemHistory.fresh) 0 1) as [h'|] eqn:Hrec;
    [|by vm_compute in Hrec].
  exists h'. split; [by vm_compute|]. split; [reflexivity|].
  vm_compute in Hrec. injection Hrec as <-.
  split; [by vm_compute|]. split; [by vm_compute|]. by vm_compute.
Qed.

(** ** The surrounding check *)

Section Surrounding.

Context {H : Type} {B : kv.EncHistory H}.

Variable wsPeriod : Z.

(** With enough fuel the loop of lines 98-108 ends, with [true] exactly when
    one of the remaining epochs has a recorded vote whose source is greater
    than the candidate's. *)
Lemma surroundingLoop_spec (fuel : nat) (history : H)
  (sourceEpoch targetEpoch i : Z) :
  0 <= i -> targetEpoch < U64.max ->
  (Z.to_nat (targetEpoch - i + 1) < fuel)%nat ->
  (surroundingLoop wsPeriod fuel history sourceEpoch targetEpoch i
   = Returns true
   /\ surroundsRecorded wsPeriod history sourceEpoch i targetEpoch)
  \/ (surroundingLoop wsPeriod fuel history sourceEpoch targetEpoch i
      = Returns false
      /\ ~ surroundsRecorded wsPeriod history sourceEpoch i targetEpoch).
Proof.
  unfold U64.max. revert i.
  induction fuel as [|fuel IH]; intros i Hi Ht Hfuel; [lia|].
  simpl. destruct (i <=? targetEpoch) eqn:Hle.
  2:{ apply Z.leb_gt in Hle. right. split; [reflexivity|].
      intros (k & hd & Hk & _). lia. }
  apply Z.leb_le in Hle.
  rewrite add_small by lia.
  assert (Hnext : forall hd,
    safeTargetToSource wsPeriod history i = hd ->
    match hd with
    | Some d => kv.Source d <= sourceEpoch
    | None => True
    end ->
    (surroundingLoop wsPeriod fuel history sourceEpoch targetEpoch (i + 1)
     = Returns true
     /\ surroundsRecorded wsPeriod history sourceEpoch i targetEpoch)
    \/ (surroundingLoop wsPeriod fuel history sourceEpoch targetEpoch (i + 1)
        = Returns false
        /\ ~ surroundsRecorded wsPeriod history sourceEpoch i targetEpoch)).
  { intros hd Hhd Hsmall.
    destruct (IH (i + 1) ltac:(lia) Ht ltac:(lia))
      as [(Hres & k & d & Hk & Hget & Hgt) | (Hres & Hno)].
    - left. split; [exact Hres|]. exists k, d. split; [lia|]. auto.
    - right. split; [exact Hres|]. intros (k & d & Hk & Hget & Hgt).
      destruct (Z.eq_dec k i) as [->|Hki].
      + rewrite Hget in Hhd. subst hd. lia.
      + apply Hno. exists k, d. split; [lia|]. auto. }
  destruct (safeTargetToSource wsPeriod history i) as [historyBoundry|]
    eqn:Hget.
  - destruct (kv.Source historyBoundry >? sourceEpoch) eqn:Hgt.
    + left. split; [reflexivity|]. exists i, historyBoundry.
      split; [lia|]. split; [exact Hget|].
      destruct (Z.gtb_spec (kv.Source historyBoundry) sourceEpoch);
        [lia | discriminate].
    + apply (Hnext (Some historyBoundry) eq_refl). simpl.
      destruct (Z.gtb_spec (kv.Source historyBoundry) sourceEpoch);
        [discriminate | lia].
  - apply (Hnext None eq_refl). exact I.
Qed.

End Surrounding.

(** C6, on the code. With [wsPeriod = 100] and high-water mark 1000 the
    history holds one vote, the one for target epoch 1000 (source 999), in
    slot 0; no epoch of (900, 950], the in-window part of the candidate's
    range, has a vote. For the candidate (source 900, target 950) the
    surrounding loop looks epoch 900 = 1000 - 100 up, gets the vote of epoch
    1000 from the bounded lookup, and returns true: the candidate is flagged
    with no in-window recorded vote in its range. *)
Theorem C6_surrounding_check_flags_at_boundary :
  Sample.getLatest Sample.at1000 = Ok 1000
  /\ (forall i : Z,
        900 < i <= 950 -> Sample.getTarget Sample.at1000 i = Ok None)
  /\ Sample.getTarget Sample.at1000 950 = Ok None
  /\ Sample.lookup Sample.at1000 900
     = Some (kv.mkHistoryData 999 (Sample.rootOf x01))
  /\ surroundingLoop (H0 := MemHistory.backend 100) 100 100 Sample.at1000
       900 950 900 = Returns true
  /\ Sample.check 100 (Some Sample.at1000) 900 950 (Sample.rootOf x02)
     = Returns true.
Proof.
  split; [reflexivity|]. split.
  { intros i Hi. simpl.
    assert (Hmod : i mod 100 = i - 900).
    { symmetry. apply Z.mod_unique with (q := 9); lia. }
    rewrite Hmod, lookup_singleton_ne by lia. reflexivity. }
  split; [by vm_compute|]. split; [by vm_compute|].
  split; by vm_compute.
Qed.

(** ** The surrounded check *)



(** C5, on the code. With the vote (source 1, target 6) recorded on a fresh
    history, the bounded lookup of epoch 5 is Absent (the update itself
    cleared that slot) and the one of epoch 6 is the recorded vote, whose
    source 1 is less than 2. The check of the candidate (source 2, target 5)
    does not skip epoch 5: for every fuel that lets the surrounding loop
    finish, it ends in a nil dereference inside the surrounded loop and
    returns nothing. *)
Theorem C5_surrounded_check_dereferences_absent :
  exists h' : MemHistory.t,
    Sample.record (Some MemHistory.fresh) 1 6 = Some h'
    /\ Sample.lookup h' 5 = None
    /\ Sample.lookup h' 6 = Some (kv.mkHistoryData 1 [])
    /\ (forall fuel : nat,
          Sample.check (5 + fuel) (Some h') 2 5 (Sample.rootOf x02) = Panics).
Proof.
  destruct (Sample.record (Some MemHistory.fresh) 1 6) as [h'|] eqn:Hrec;
    [|by vm_compute in Hrec].
  exists h'. split; [reflexivity|].
  vm_compute in Hrec. injection Hrec as <-.
  split; [by vm_compute|]. split; [by vm_compute|].
  intros fuel. by vm_compute.
Qed.

(** ** The bounded lookup *)

(** Inside the window [lew - wsPeriod < epoch <= lew] the bounded lookup is
    the content of the epoch's slot, Absent when the slot cannot be read. *)
Lemma safeTargetToSource_in_window {H : Type} {B : kv.EncHistory H}
  (wsPeriod : Z) (history : H) (lew epoch : Z) :
  0 <= epoch < 2 ^ 63 -> 0 <= lew < 2 ^ 63 -> 0 <= wsPeriod < 2 ^ 63 ->
  kv.GetLatestEpochWritten history = Ok lew ->
  lew - wsPeriod < epoch <= lew ->
  safeTargetToSource wsPeriod history epoch
  = match kv.GetTargetData history (epoch mod wsPeriod) with
    | Ok hd => hd
    | Err _ => None
    end.
Proof.
  intros He Hl Hw Hlew Hin. unfold safeTargetToSource. rewrite Hlew.
  rewrite !to_int_small by assumption. rewrite int_sub_small by assumption.
  replace (epoch >? lew) with false
    by (symmetry; destruct (Z.gtb_spec epoch lew); [lia | reflexivity]).
  replace (epoch <? lew - wsPeriod) with false
    by (symmetry; apply Z.ltb_ge; lia).
  reflexivity.
Qed.

(** Ahead of the high-water mark, and strictly more than [wsPeriod] behind
    it, the bounded lookup is Absent whatever the slot holds. *)
Lemma safeTargetToSource_out_of_bounds {H : Type} {B : kv.EncHistory H}
  (wsPeriod : Z) (history : H) (lew epoch : Z) :
  0 <= epoch < 2 ^ 63 -> 0 <= lew < 2 ^ 63 -> 0 <= wsPeriod < 2 ^ 63 ->
  kv.GetLatestEpochWritten history = Ok lew ->
  epoch > lew \/ epoch < lew - wsPeriod ->
  safeTargetToSource wsPeriod history epoch = None.
Proof.
  intros He Hl Hw Hlew Hout. unfold safeTargetToSource. rewrite Hlew.
  rewrite !to_int_small by assumption. rewrite int_sub_small by assumption.
  destruct Hout as [Hgt|Hlt].
  - replace (epoch >? lew) with true; [reflexivity|].
    symmetry. destruct (Z.gtb_spec epoch lew); [reflexivity | lia].
  - replace (epoch <? lew - wsPeriod) with true
      by (symmetry; by apply Z.ltb_lt).
    rewrite orb_true_r. reflexivity.
Qed.

(** At the boundary epoch [lew - wsPeriod] the bounds test of
    [safeTargetToSource] lets the read through, and the slot read is the one
    of epoch [lew]. *)
Lemma safeTargetToSource_boundary {H : Type} {B : kv.EncHistory H}
  (wsPeriod : Z) (history : H) (lew : Z) (hd : option kv.HistoryData) :
  0 < wsPeriod -> wsPeriod <= lew < 2 ^ 63 ->
  kv.GetLatestEpochWritten history = Ok lew ->
  kv.GetTargetData history (lew mod wsPeriod) = Ok hd ->
  safeTargetToSource wsPeriod history (lew - wsPeriod) = hd.
Proof.
  intros Hw Hl Hlew Hget. unfold safeTargetToSource. rewrite Hlew.
  replace (lew - wsPeriod >? lew) with false
    by (symmetry; destruct (Z.gtb_spec (lew - wsPeriod) lew); [lia | done]).
  rewrite !to_int_small by lia. rewrite int_sub_small by lia.
  rewrite Z.ltb_irrefl. simpl.
  replace ((lew - wsPeriod) mod wsPeriod) with (lew mod wsPeriod).
  - rewrite Hget. reflexivity.
  - replace (lew - wsPeriod) with (lew + (-1) * wsPeriod) by lia.
    rewrite Z.mod_add by lia. reflexivity.
Qed.

(** C8, on the code. With [wsPeriod = 100] and high-water mark 1000, the
    bounded lookup of the boundary epoch 900 = 1000 - 100 is not Absent: it
    yields the vote recorded for epoch 1000, which a candidate (source 900,
    target 950) is then flagged against. The read of the double-vote step
    checks no upper bound either: for the target 1005, ahead of the
    high-water mark, it yields what epoch 905 left in slot 5, and the
    candidate is flagged as a double vote. *)
Theorem C8_out_of_window_reads_are_not_absent :
  Sample.getLatest Sample.at1000 = Ok 1000
  /\ Sample.lookup Sample.at1000 900
     = Some (kv.mkHistoryData 999 (Sample.rootOf x01))
  /\ Sample.check 100 (Some Sample.at1000) 900 950 (Sample.rootOf x02)
     = Returns true
  /\ Sample.getLatest Sample.leftover905 = Ok 1000
  /\ Sample.getTarget Sample.leftover905 1005
     = Ok (Some (kv.mkHistoryData 904 (Sample.rootOf x01)))
  /\ Sample.check 100 (Some Sample.leftover905) 1004 1005 (Sample.rootOf x02)
     = Returns true.
Proof. repeat split; by vm_compute. Qed.

(** * Further properties of the code *)

(** ** The bounded lookup, continued *)

(** X1. With the high-water mark [lew] read and all epochs below 2^63,
    [safeTargetToSource] returns an entry for [epoch] exactly when
    [lew - wsPeriod <= epoch <= lew] and the read of slot
    [epoch mod wsPeriod] succeeds with that entry: it returns nothing for an
    epoch ahead of the mark or more than [wsPeriod] behind it, nothing when
    the slot cannot be read, and never an entry the slot does not hold. *)
Theorem X1_bounded_lookup_entry_iff {H : Type} {B : kv.EncHistory H}
  (wsPeriod : Z) (history : H) (lew epoch : Z) (hd : kv.HistoryData) :
  0 <= epoch < 2 ^ 63 -> 0 <= lew < 2 ^ 63 -> 0 < wsPeriod < 2 ^ 63 ->
  kv.GetLatestEpochWritten history = Ok lew ->
  safeTargetToSource wsPeriod history epoch = Some hd
  <-> lew - wsPeriod <= epoch <= lew
      /\ kv.GetTargetData history (epoch mod wsPeriod) = Ok (Some hd).
Proof.
  intros He Hl Hw Hlew. unfold safeTargetToSource. rewrite Hlew.
  rewrite !to_int_small by lia. rewrite int_sub_small by lia.
  destruct (Z.gtb_spec epoch lew) as [Hgt|Hle]; simpl.
  { split; [discriminate | lia]. }
  destruct (Z.ltb_spec epoch (lew - wsPeriod)) as [Hlt|Hge].
  { split; [discriminate | lia]. }
  destruct (kv.GetTargetData history (epoch mod wsPeriod)) as [[d|]|e].
  - split.
    + intros [= ->]. split; [lia | reflexivity].
    + intros [_ [= ->]]. reflexivity.
  - split; [discriminate|]. intros [_ Hget]. discriminate.
  - split; [discriminate|]. intros [_ Hget]. discriminate.
Qed.

(** Epoch 1000 at high-water mark 1000 is found in slot 0. *)
Lemma X1_bounded_lookup_witness :
  Sample.lookup Sample.at1000 1000
  = Some (kv.mkHistoryData 999 (Sample.rootOf x01)).
Proof.
  apply (X1_bounded_lookup_entry_iff (B := MemHistory.backend 100) 100
           Sample.at1000 1000 1000).
  - lia.
  - lia.
  - lia.
  - reflexivity.
  - split; [lia | reflexivity].
Defined.

(** ** The history updater, continued *)

Section UpdaterFrame.

Context {H : Type} {B : kv.EncHistory H}.

Variable wsPeriod : Z.

Context {L : kv.EncHistoryLaws wsPeriod H}.

(** The clearing loop writes no vote: a slot is Absent after it or holds
    what it held. *)
Lemma evictLoop_only_clears (n : nat) (history cleared : H)
  (targetEpoch maxToWrite i : Z) :
  evictLoop wsPeriod n history targetEpoch maxToWrite i = Ok cleared ->
  forall j : Z,
    kv.GetTargetData cleared j = Ok None
    \/ kv.GetTargetData cleared j = kv.GetTargetData history j.
Proof.
  revert history i. induction n as [|n IH]; intros history i; simpl.
  - intros [= ->] j. by right.
  - destruct ((i <? targetEpoch) && (i <=? maxToWrite)).
    2:{ intros [= ->] j. by right. }
    destruct (kv.SetTargetData history (i mod wsPeriod) None)
      as [history'|e] eqn:Hset; [|discriminate].
    intros Hloop j. destruct (IH _ _ Hloop j) as [Hnone|Hsame]; [by left|].
    rewrite Hsame.
    destruct (Z.eq_dec (j mod wsPeriod) (i mod wsPeriod)) as [Hji|Hji].
    + left. eapply kv.get_set_target_eq; [exact Hset|].
      rewrite Zmod_mod. exact Hji.
    + right. eapply kv.get_set_target_ne; [exact Hset|].
      rewrite Zmod_mod. exact Hji.
Qed.

(** The slots of the other epochs after a successful update. *)
Lemma markAttestationForTargetEpoch_others (history h' : H)
  (sourceEpoch targetEpoch lew : Z) (j : Z) :
  kv.GetLatestEpochWritten history = Ok lew ->
  markAttestationForTargetEpoch wsPeriod (Some history) sourceEpoch
    targetEpoch = Some h' ->
  j mod wsPeriod <> targetEpoch mod wsPeriod ->
  (kv.GetTargetData h' j = Ok None
   \/ kv.GetTargetData h' j = kv.GetTargetData history j)
  /\ (targetEpoch <= lew ->
      kv.GetTargetData h' j = kv.GetTargetData history j).
Proof.
  intros Hlew Hmark Hj.
  apply markAttestationForTargetEpoch_inv in Hmark
    as (lew0 & mid & Hlew0 & Hslide & Hlast).
  assert (lew0 = lew) by congruence. subst lew0.
  assert (Hfinal : kv.GetTargetData h' j = kv.GetTargetData mid j).
  { eapply kv.get_set_target_ne; [exact Hlast|].
    rewrite Zmod_mod. exact Hj. }
  rewrite Hfinal.
  destruct Hslide as [(Hgt & cleared & Hloop & Hset) | (Hle & ->)].
  - split; [|lia].
    rewrite (kv.get_set_lew _ _ _ j Hset).
    eapply evictLoop_only_clears; eassumption.
  - split; [by right | reflexivity].
Qed.

End UpdaterFrame.

(** X2. A successful [markAttestationForTargetEpoch] for [targetEpoch]
    writes a vote into no other slot: the slot of every other epoch is
    Absent afterwards or holds what it held before. When the target is not
    ahead of the high-water mark, the other slots and the mark itself are
    unchanged. *)
Theorem X2_record_touches_one_slot {H : Type} {B : kv.EncHistory H}
  (wsPeriod : Z) (L : kv.EncHistoryLaws wsPeriod H) (history h' : H)
  (sourceEpoch targetEpoch lew : Z) :
  kv.GetLatestEpochWritten history = Ok lew ->
  markAttestationForTargetEpoch wsPeriod (Some history) sourceEpoch
    targetEpoch = Some h' ->
  (forall j : Z,
     j mod wsPeriod <> targetEpoch mod wsPeriod ->
     kv.GetTargetData h' j = Ok None
     \/ kv.GetTargetData h' j = kv.GetTargetData history j)
  /\ (targetEpoch <= lew ->
      kv.GetLatestEpochWritten h' = Ok lew
      /\ forall j : Z,
           j mod wsPeriod <> targetEpoch mod wsPeriod ->
           kv.GetTargetData h' j = kv.GetTargetData history j).
Proof.
  intros Hlew Hmark. split.
  - intros j Hj.
    apply (markAttestationForTargetEpoch_others wsPeriod _ _ _ _ _ j Hlew
             Hmark Hj).
  - intros Hle. split.
    + rewrite (markAttestationForTargetEpoch_lew wsPeriod _ _ _ _ _ Hlew
                 Hmark).
      f_equal. lia.
    + intros j Hj.
      apply (markAttestationForTargetEpoch_others wsPeriod _ _ _ _ _ j Hlew
               Hmark Hj).
      exact Hle.
Qed.

(** Recording target 950 at high-water mark 1000 keeps the mark and the
    vote of epoch 1000 in slot 0. *)
Lemma X2_record_touches_one_slot_witness :
  exists h' : MemHistory.t,
    Sample.record (Some Sample.at1000) 949 950 = Some h'
    /\ Sample.getLatest h' = Ok 1000
    /\ Sample.getTarget h' 1000 = Sample.getTarget Sample.at1000 1000.
Proof.
  destruct (Sample.record (Some Sample.at1000) 949 950) as [h'|] eqn:Hrec;
    [|by vm_compute in Hrec].
  exists h'. split; [reflexivity|].
  destruct (proj2 (X2_record_touches_one_slot (B := MemHistory.backend 100)
                     100 (MemHistory_laws 100) Sample.at1000 h' 949 950 1000
                     eq_refl Hrec)) as (Hlew & Hslots).
  - lia.
  - split; [exact Hlew|]. apply Hslots. by vm_compute.
Defined.

(** The bounded lookup of the recorded epoch after a successful update. *)
Lemma safeTargetToSource_after_record {H : Type} {B : kv.EncHistory H}
  (wsPeriod : Z) (L : kv.EncHistoryLaws wsPeriod H) (history h' : H)
  (sourceEpoch targetEpoch lew' : Z) :
  0 < wsPeriod < 2 ^ 63 -> 0 <= targetEpoch < 2 ^ 63 -> 0 <= lew' < 2 ^ 63 ->
  markAttestationForTargetEpoch wsPeriod (Some history) sourceEpoch
    targetEpoch = Some h' ->
  kv.GetLatestEpochWritten h' = Ok lew' ->
  lew' - wsPeriod < targetEpoch ->
  safeTargetToSource wsPeriod h' targetEpoch
  = Some (kv.mkHistoryData sourceEpoch []).
Proof.
  intros Hw Ht Hl Hmark Hlew' Hin.
  pose proof Hmark as Hinv.
  apply markAttestationForTargetEpoch_inv in Hinv
    as (lew & mid & Hlew & _ & Hlast).
  assert (Hmax : lew' = Z.max lew targetEpoch).
  { pose proof (markAttestationForTargetEpoch_lew wsPeriod _ _ _ _ _ Hlew
                  Hmark) as Hnew.
    congruence. }
  rewrite (safeTargetToSource_in_window wsPeriod h' lew' targetEpoch)
    by (try assumption; lia).
  rewrite (kv.get_set_target_eq _ _ _ (targetEpoch mod wsPeriod) _ Hlast)
    by reflexivity.
  reflexivity.
Qed.

(** X3. Record, then look up. After a successful
    [markAttestationForTargetEpoch] for a target epoch that lies inside the
    window of the updated history ([lew - wsPeriod < targetEpoch] for the
    old high-water mark [lew], which holds whenever the target was ahead of
    it), the bounded lookup of that epoch returns an entry with the recorded
    source epoch. Epochs are below 2^63; the store is any store of 32-byte
    roots. *)
Theorem X3_record_then_lookup {H : Type} {B : kv.EncHistory H}
  (wsPeriod : Z) (L : kv.EncHistoryLaws32 wsPeriod H) (history h' : H)
  (sourceEpoch targetEpoch lew : Z) :
  0 < wsPeriod < 2 ^ 63 -> 0 <= targetEpoch < 2 ^ 63 -> 0 <= lew < 2 ^ 63 ->
  kv.GetLatestEpochWritten history = Ok lew ->
  markAttestationForTargetEpoch wsPeriod (Some history) sourceEpoch
    targetEpoch = Some h' ->
  lew - wsPeriod < targetEpoch ->
  exists stored : kv.HistoryData,
    safeTargetToSource wsPeriod h' targetEpoch = Some stored
    /\ kv.Source stored = sourceEpoch.
Proof.
  intros Hw Ht Hl Hlew Hmark Hin.
  pose proof (markAttestationForTargetEpoch_lew32 wsPeriod _ _ _ _ _ Hlew
                Hmark) as Hlew'.
  destruct (markAttestationForTargetEpoch_stored32 wsPeriod history h'
              sourceEpoch targetEpoch (targetEpoch mod wsPeriod) Hmark)
    as (stored & Hget & Hsrc).
  { apply Zmod_mod. }
  exists stored. split; [|exact Hsrc].
  rewrite (safeTargetToSource_in_window wsPeriod h' (Z.max lew targetEpoch)
             targetEpoch) by (try assumption; lia).
  rewrite Hget. reflexivity.
Qed.

(** The vote (source 949, target 950) recorded at high-water mark 1000 is
    found again, on the store of 32-byte roots. *)
Lemma X3_record_then_lookup_witness :
  exists (h' : MemHistory.t) (stored : kv.HistoryData),
    Sample.record32 (Some Sample.at1000) 949 950 = Some h'
    /\ Sample.lookup32 h' 950 = Some stored
    /\ kv.Source stored = 949.
Proof.
  destruct (Sample.record32 (Some Sample.at1000) 949 950) as [h'|] eqn:Hrec;
    [|by vm_compute in Hrec].
  destruct (X3_record_then_lookup (B := MemHistory.backend32 100) 100
              (MemHistory_laws32 100) Sample.at1000 h' 949 950 1000)
    as (stored & Hget & Hsrc).
  - lia.
  - lia.
  - lia.
  - reflexivity.
  - exact Hrec.
  - lia.
  - exists h', stored. split; [reflexivity|]. split; assumption.
Defined.

(** X4. A jump of the target epoch by more than [wsPeriod] past the
    high-water mark ([lew + wsPeriod < targetEpoch], no overflow) wipes the
    history: after the update every slot other than the target's is
    Absent. *)
Theorem X4_long_jump_clears_history {H : Type} {B : kv.EncHistory H}
  (wsPeriod : Z) (L : kv.EncHistoryLaws wsPeriod H) (history h' : H)
  (sourceEpoch targetEpoch lew : Z) :
  0 < wsPeriod -> 0 <= lew -> targetEpoch < 2 ^ 64 ->
  kv.GetLatestEpochWritten history = Ok lew ->
  lew + wsPeriod < targetEpoch ->
  markAttestationForTargetEpoch wsPeriod (Some history) sourceEpoch
    targetEpoch = Some h' ->
  forall j : Z,
    j mod wsPeriod <> targetEpoch mod wsPeriod ->
    kv.GetTargetData h' j = Ok None.
Proof.
  intros Hw Hl Ht Hlew Hjump Hmark j Hj.
  apply markAttestationForTargetEpoch_inv in Hmark
    as (lew0 & mid & Hlew0 & Hslide & Hlast).
  assert (lew0 = lew) by congruence. subst lew0.
  destruct Hslide as [(_ & cleared & Hloop & Hset) | (Hle & _)]; [|lia].
  rewrite (add_small lew 1) in Hloop by lia.
  rewrite (add_small lew wsPeriod) in Hloop by lia.
  rewrite (kv.get_set_target_ne _ _ _ j _ Hlast)
    by (rewrite Zmod_mod; exact Hj).
  rewrite (kv.get_set_lew _ _ _ j Hset).
  pose proof (evictLoop_slots wsPeriod (Z.to_nat (targetEpoch - lew)) history
                cleared targetEpoch (lew + wsPeriod) (lew + 1)) as Hs.
  destruct (Hs ltac:(lia) Ht ltac:(lia) Hloop j) as (_ & Hin & _).
  apply Hin. exists (lew + 1 + (j - lew - 1) mod wsPeriod).
  pose proof (Z.mod_pos_bound (j - lew - 1) wsPeriod Hw) as Hbound.
  split; [lia|]. split; [lia|].
  rewrite Zplus_mod_idemp_r. f_equal. lia.
Qed.

(** Recording target 1150 at high-water mark 1000 leaves nothing of the
    vote of epoch 1000. *)
Lemma X4_long_jump_witness :
  exists h' : MemHistory.t,
    Sample.record (Some Sample.at1000) 1149 1150 = Some h'
    /\ Sample.getTarget h' 1000 = Ok None.
Proof.
  destruct (Sample.record (Some Sample.at1000) 1149 1150) as [h'|] eqn:Hrec;
    [|by vm_compute in Hrec].
  exists h'. split; [reflexivity|].
  apply (X4_long_jump_clears_history (B := MemHistory.backend 100) 100
           (MemHistory_laws 100) Sample.at1000 h' 1149 1150 1000).
  - lia.
  - lia.
  - lia.
  - reflexivity.
  - lia.
  - exact Hrec.
  - by vm_compute.
Defined.

(** ** Candidates ahead of the high-water mark *)

(** For a target ahead of the high-water mark the surrounded loop has
    nothing to visit: the check ends, with the answer of the double-vote
    guard and the surrounding loop. *)
Lemma isNewAttSlashable_forward {H : Type} {B : kv.EncHistory H}
  (wsPeriod : Z) (v : validator H) (fuel : nat) (history : H)
  (sourceEpoch targetEpoch lew : Z) (indexedAtt : ethpb.IndexedAttestation)
  (hd : option kv.HistoryData) :
  0 < wsPeriod < 2 ^ 63 -> 0 <= sourceEpoch ->
  0 <= lew -> lew < targetEpoch -> targetEpoch < 2 ^ 63 ->
  (Z.to_nat (targetEpoch - sourceEpoch + 1) < fuel)%nat ->
  kv.GetLatestEpochWritten history = Ok lew ->
  kv.GetTargetData history targetEpoch = Ok hd ->
  (isNewAttSlashable wsPeriod v fuel (Some history) sourceEpoch targetEpoch
     indexedAtt = Returns true
   /\ (doubleVote hd (signingRootOf v (ethpb.Data indexedAtt)) = true
       \/ surroundsRecorded wsPeriod history sourceEpoch sourceEpoch
            targetEpoch))
  \/ (isNewAttSlashable wsPeriod v fuel (Some history) sourceEpoch
        targetEpoch indexedAtt = Returns false
      /\ doubleVote hd (signingRootOf v (ethpb.Data indexedAtt)) = false
      /\ ~ surroundsRecorded wsPeriod history sourceEpoch sourceEpoch
             targetEpoch).
Proof.
  intros Hw Hs Hl Hlt Ht Hfuel Hlew Hget.
  unfold isNewAttSlashable, signingRootOf.
  destruct (getDomainAndSigningRoot v _) as [[dom sr] err]. simpl.
  rewrite Hlew. rewrite previouslyPruned_small by lia.
  replace (targetEpoch <=? lew - wsPeriod) with false
    by (symmetry; apply Z.leb_gt; lia).
  rewrite Hget.
  destruct (doubleVote hd sr) eqn:Hdv; [left; split; [reflexivity | by left]|].
  destruct (surroundingLoop_spec wsPeriod fuel history sourceEpoch
              targetEpoch sourceEpoch Hs) as [(Hres & Hex) | (Hres & Hno)].
  - unfold U64.max. lia.
  - exact Hfuel.
  - rewrite Hres. left. split; [reflexivity | by right].
  - rewrite Hres. right.
    destruct fuel as [|fuel]; [lia|]. simpl.
    replace (targetEpoch <=? lew) with false
      by (symmetry; apply Z.leb_gt; lia).
    split; [reflexivity|]. split; [reflexivity | exact Hno].
Qed.

(** X5. For a candidate whose target epoch is ahead of the high-water mark
    (epochs below 2^63, fuel for one pass over [[sourceEpoch, targetEpoch]])
    and whose slot can be read, [isNewAttSlashable] never panics: it returns
    true exactly when the double-vote guard fires on what the target's slot
    holds or the surrounding check finds a vote, and false otherwise. *)
Theorem X5_forward_candidate_total {H : Type} {B : kv.EncHistory H}
  (wsPeriod : Z) (v : validator H) (fuel : nat) (history : H)
  (sourceEpoch targetEpoch lew : Z) (indexedAtt : ethpb.IndexedAttestation)
  (hd : option kv.HistoryData) :
  0 < wsPeriod < 2 ^ 63 -> 0 <= sourceEpoch ->
  0 <= lew -> lew < targetEpoch -> targetEpoch < 2 ^ 63 ->
  (Z.to_nat (targetEpoch - sourceEpoch + 1) < fuel)%nat ->
  kv.GetLatestEpochWritten history = Ok lew ->
  kv.GetTargetData history targetEpoch = Ok hd ->
  (isNewAttSlashable wsPeriod v fuel (Some history) sourceEpoch targetEpoch
     indexedAtt = Returns true
   <-> doubleVote hd (signingRootOf v (ethpb.Data indexedAtt)) = true
       \/ surroundsRecorded wsPeriod history sourceEpoch sourceEpoch
            targetEpoch)
  /\ (isNewAttSlashable wsPeriod v fuel (Some history) sourceEpoch
        targetEpoch indexedAtt = Returns false
      <-> doubleVote hd (signingRootOf v (ethpb.Data indexedAtt)) = false
          /\ ~ surroundsRecorded wsPeriod history sourceEpoch sourceEpoch
                 targetEpoch).
Proof.
  intros Hw Hs Hl Hlt Ht Hfuel Hlew Hget.
  destruct (isNewAttSlashable_forward wsPeriod v fuel history sourceEpoch
              targetEpoch lew indexedAtt hd Hw Hs Hl Hlt Ht Hfuel Hlew Hget)
    as [(Hres & Hyes) | (Hres & Hdv & Hno)]; rewrite Hres.
  - split; [split; auto|]. split; [discriminate|].
    intros [Hdv Hno]. destruct Hyes as [Hyes|Hyes]; [congruence | contradiction].
  - split; [|split; auto]. split; [discriminate|].
    intros [Hyes|Hyes]; [congruence | contradiction].
Qed.

(** The first attestation on a fresh history is not slashable. *)
Lemma X5_forward_candidate_witness :
  Sample.check 10 (Some MemHistory.fresh) 4 5 (Sample.rootOf x02)
  = Returns false.
Proof.
  apply (X5_forward_candidate_total (B := MemHistory.backend 100) 100
           (Sample.client (Some MemHistory.fresh) (Sample.rootOf x02) None)
           10 MemHistory.fresh 4 5 0 (Sample.att 4 5) None).
  - lia.
  - lia.
  - lia.
  - lia.
  - lia.
  - vm_compute. lia.
  - reflexivity.
  - reflexivity.
  - split; [reflexivity|].
    intros (i & d & Hi & Hget & _).
    assert (Hcases : i = 4 \/ i = 5) by lia.
    destruct Hcases as [-> | ->]; vm_compute in Hget; discriminate.
Defined.

(** X6. A candidate that surrounds a recorded vote is flagged. After a
    successful update for the vote ([recordedSource], [recordedTarget]) that
    leaves its target inside the window, every candidate with a smaller
    source epoch and a target epoch ahead of the new high-water mark, whose
    own slot can be read, makes [isNewAttSlashable] return true. Epochs are
    below 2^63 and the fuel covers one pass over the candidate's range. *)
Theorem X6_surrounding_a_recorded_vote {H : Type} {B : kv.EncHistory H}
  (wsPeriod : Z) (L : kv.EncHistoryLaws wsPeriod H) (v : validator H)
  (fuel : nat) (history h' : H)
  (recordedSource recordedTarget lew' sourceEpoch targetEpoch : Z)
  (indexedAtt : ethpb.IndexedAttestation) (hd : option kv.HistoryData) :
  0 < wsPeriod < 2 ^ 63 -> 0 <= recordedTarget -> 0 <= lew' ->
  markAttestationForTargetEpoch wsPeriod (Some history) recordedSource
    recordedTarget = Some h' ->
  kv.GetLatestEpochWritten h' = Ok lew' ->
  lew' - wsPeriod < recordedTarget ->
  0 <= sourceEpoch -> sourceEpoch < recordedSource ->
  sourceEpoch <= recordedTarget ->
  lew' < targetEpoch -> targetEpoch < 2 ^ 63 ->
  (Z.to_nat (targetEpoch - sourceEpoch + 1) < fuel)%nat ->
  kv.GetTargetData h' targetEpoch = Ok hd ->
  isNewAttSlashable wsPeriod v fuel (Some h') sourceEpoch targetEpoch
    indexedAtt = Returns true.
Proof.
  intros Hw Hrt Hl Hmark Hlew' Hin Hs Hlt Hle Hahead Ht Hfuel Hget.
  assert (Hmax : recordedTarget <= lew').
  { pose proof Hmark as Hinv.
    apply markAttestationForTargetEpoch_inv in Hinv
      as (lew & mid & Hlew & _ & _).
    pose proof (markAttestationForTargetEpoch_lew wsPeriod _ _ _ _ _ Hlew
                  Hmark) as Hnew.
    assert (lew' = Z.max lew recordedTarget) by congruence. lia. }
  destruct (isNewAttSlashable_forward wsPeriod v fuel h' sourceEpoch
              targetEpoch lew' indexedAtt hd Hw Hs Hl Hahead Ht Hfuel Hlew'
              Hget) as [(Hres & _) | (_ & _ & Hno)]; [exact Hres|].
  exfalso. apply Hno.
  exists recordedTarget, (kv.mkHistoryData recordedSource []).
  split; [lia|]. split; [|simpl; lia].
  apply (safeTargetToSource_after_record wsPeriod L history h' recordedSource
           recordedTarget lew'); try assumption; lia.
Qed.

(** With the vote (source 2, target 5) recorded on a fresh history, the
    candidate (source 1, target 6) is flagged. *)
Lemma X6_surrounding_witness :
  exists h' : MemHistory.t,
    Sample.record (Some MemHistory.fresh) 2 5 = Some h'
    /\ isNewAttSlashable (H0 := MemHistory.backend 100) 100
         (Sample.client None (Sample.rootOf x02) None) 10 (Some h') 1 6
         (Sample.att 1 6)
       = Returns true.
Proof.
  destruct (Sample.record (Some MemHistory.fresh) 2 5) as [h'|] eqn:Hrec;
    [|by vm_compute in Hrec].
  exists h'. split; [reflexivity|].
  apply (X6_surrounding_a_recorded_vote (B := MemHistory.backend 100) 100
           (MemHistory_laws 100) _ 10 MemHistory.fresh h' 2 5 5 1 6 _ None).
  - lia.
  - lia.
  - lia.
  - exact Hrec.
  - rewrite (markAttestationForTargetEpoch_lew (B := MemHistory.backend 100)
               100 (L := MemHistory_laws 100) MemHistory.fresh h' 2 5 0
               eq_refl Hrec).
    reflexivity.
  - lia.
  - lia.
  - lia.
  - lia.
  - lia.
  - lia.
  - vm_compute. lia.
  - vm_compute in Hrec. injection Hrec as <-. reflexivity.
Defined.

(** ** The whole check *)






(** ** The update after signing *)

(** The history of the key after [postAttSignUpdate]. *)
Lemma postAttSignUpdate_history {H : Type} {B : kv.EncHistory H}
  (wsPeriod : Z) (slasherProtection : bool) (v : validator H)
  (indexedAtt : ethpb.IndexedAttestation) (pubKey : N)
  (attesterHistory : option H) :
  attesterHistoryByPubKey v !! pubKey = Some attesterHistory ->
  attesterHistoryByPubKey
    (fst (postAttSignUpdate wsPeriod slasherProtection v indexedAtt pubKey))
    !! pubKey
  = Some (markAttestationForTargetEpoch wsPeriod attesterHistory
            (ethpb.Epoch (ethpb.Source (ethpb.Data indexedAtt)))
            (ethpb.Epoch (ethpb.Target (ethpb.Data indexedAtt)))).
Proof.
  intros Hkey. unfold postAttSignUpdate. rewrite Hkey.
  cbn [fst withHistories attesterHistoryByPubKey].
  apply lookup_insert_eq.
Qed.

(** X9. [postAttSignUpdate] touches the history of its own key only: a key
    the map does not have is not created (the validator is unchanged), the
    history of every other key is what it was, and the history of the key is
    the result of [markAttestationForTargetEpoch] on the attestation's
    epochs. The error returned does not depend on that result: it is the
    external slasher's refusal, when slasher protection is on and a
    protector that refuses is configured, and nil otherwise. *)
Theorem X9_post_update_frame {H : Type} {B : kv.EncHistory H} (wsPeriod : Z)
  (slasherProtection : bool) (v : validator H)
  (indexedAtt : ethpb.IndexedAttestation) (pubKey : N) :
  (attesterHistoryByPubKey v !! pubKey = None ->
   fst (postAttSignUpdate wsPeriod slasherProtection v indexedAtt pubKey) = v)
  /\ (forall other : N,
        other <> pubKey ->
        attesterHistoryByPubKey
          (fst (postAttSignUpdate wsPeriod slasherProtection v indexedAtt
                  pubKey)) !! other
        = attesterHistoryByPubKey v !! other)
  /\ (forall attesterHistory : option H,
        attesterHistoryByPubKey v !! pubKey = Some attesterHistory ->
        attesterHistoryByPubKey
          (fst (postAttSignUpdate wsPeriod slasherProtection v indexedAtt
                  pubKey)) !! pubKey
        = Some (markAttestationForTargetEpoch wsPeriod attesterHistory
                  (ethpb.Epoch (ethpb.Source (ethpb.Data indexedAtt)))
                  (ethpb.Epoch (ethpb.Target (ethpb.Data indexedAtt)))))
  /\ (snd (postAttSignUpdate wsPeriod slasherProtection v indexedAtt pubKey)
      = Some failedPostAttSignExternalErr
      <-> slasherProtection = true
          /\ exists p : Protector,
               protector v = Some p
               /\ CommitAttestation p indexedAtt = false)
  /\ (snd (postAttSignUpdate wsPeriod slasherProtection v indexedAtt pubKey)
      = None
      \/ snd (postAttSignUpdate wsPeriod slasherProtection v indexedAtt
                pubKey)
         = Some failedPostAttSignExternalErr).
Proof.
  unfold postAttSignUpdate. simpl.
  assert (Hprot : protector
            match attesterHistoryByPubKey v !! pubKey with
            | Some attesterHistory =>
              withHistories v
                (<[pubKey :=
                     markAttestationForTargetEpoch wsPeriod attesterHistory
                       (ethpb.Epoch (ethpb.Source (ethpb.Data indexedAtt)))
                       (ethpb.Epoch (ethpb.Target (ethpb.Data indexedAtt)))]>
                   (attesterHistoryByPubKey v))
            | None => v
            end = protector v).
  { destruct (attesterHistoryByPubKey v !! pubKey); reflexivity. }
  split; [|split; [|split; [|split]]].
  - intros ->. reflexivity.
  - intros other Hother.
    destruct (attesterHistoryByPubKey v !! pubKey); [|reflexivity].
    simpl. apply lookup_insert_ne. congruence.
  - intros attesterHistory Hkey.
    apply (postAttSignUpdate_history wsPeriod slasherProtection v indexedAtt
             pubKey attesterHistory Hkey).
  - unfold externalPostCommit. rewrite Hprot.
    destruct slasherProtection.
    2:{ split; [discriminate|]. intros [? _]. discriminate. }
    destruct (protector v) as [p|].
    2:{ split; [discriminate|]. intros (_ & p & Hp & _). discriminate. }
    destruct (CommitAttestation p indexedAtt) eqn:Hcommit; simpl.
    + split; [discriminate|]. intros (_ & q & [= <-] & Hq). congruence.
    + split; [|reflexivity]. intros _. split; [reflexivity|]. eauto.
  - unfold externalPostCommit. rewrite Hprot.
    destruct slasherProtection; [|by left].
    destruct (protector v) as [p|]; [|by left].
    destruct (negb (CommitAttestation p indexedAtt)); [by right | by left].
Qed.

(** With the external slasher [Sample.strict] and slasher protection on,
    the update for key 7 leaves the history of key 8 alone and returns the
    post-sign error. *)
Lemma X9_post_update_frame_witness :
  attesterHistoryByPubKey
    (fst (postAttSignUpdate (H0 := MemHistory.backend 100) 100 true
            (Sample.guarded (Some MemHistory.fresh) (Some Sample.at1000)
               (Sample.rootOf x02))
            (Sample.att 4 5) 7)) !! 8%N
  = Some (Some Sample.at1000)
  /\ snd (postAttSignUpdate (H0 := MemHistory.backend 100) 100 true
            (Sample.guarded (Some MemHistory.fresh) (Some Sample.at1000)
               (Sample.rootOf x02))
            (Sample.att 4 5) 7)
     = Some failedPostAttSignExternalErr.
Proof.
  pose proof (X9_post_update_frame (B := MemHistory.backend 100) 100 true
                (Sample.guarded (Some MemHistory.fresh) (Some Sample.at1000)
                   (Sample.rootOf x02))
                (Sample.att 4 5) 7) as (_ & Hother & _ & Herr & _).
  split.
  - rewrite (Hother 8%N) by discriminate. reflexivity.
  - apply Herr. split; [reflexivity|].
    exists Sample.strict. split; reflexivity.
Defined.

(** X10. Commit, then check. After [postAttSignUpdate] has recorded an
    attestation for a key with success, the slot of its target epoch holds
    an entry with its source epoch, and [preAttSignValidations] rejects,
    with the local slashing protection error, every attestation of that key
    for the same target epoch whose signing root differs from the root the
    store reads back for that entry (whatever its source epoch), as long as
    the target is not behind the retained window of the updated history.
    The store is any store of 32-byte roots. *)
Theorem X10_commit_then_same_target_rejected {H : Type}
  {B : kv.EncHistory H} (wsPeriod : Z) (L : kv.EncHistoryLaws32 wsPeriod H)
  (slasherProtection : bool) (v : validator H)
  (signed : ethpb.IndexedAttestation) (pubKey : N)
  (history h' : H) (lew' : Z) :
  0 < wsPeriod ->
  attesterHistoryByPubKey v !! pubKey = Some (Some history) ->
  markAttestationForTargetEpoch wsPeriod (Some history)
    (ethpb.Epoch (ethpb.Source (ethpb.Data signed)))
    (ethpb.Epoch (ethpb.Target (ethpb.Data signed))) = Some h' ->
  kv.GetLatestEpochWritten h' = Ok lew' ->
  previouslyPruned wsPeriod lew'
    (ethpb.Epoch (ethpb.Target (ethpb.Data signed))) = false ->
  exists stored : kv.HistoryData,
    kv.GetTargetData h' (ethpb.Epoch (ethpb.Target (ethpb.Data signed)))
    = Ok (Some stored)
    /\ kv.Source stored = ethpb.Epoch (ethpb.Source (ethpb.Data signed))
    /\ forall (fuel : nat) (candidate : ethpb.IndexedAttestation),
         ethpb.Epoch (ethpb.Target (ethpb.Data candidate))
         = ethpb.Epoch (ethpb.Target (ethpb.Data signed)) ->
         signingRootOf v (ethpb.Data candidate) <> kv.SigningRoot stored ->
         preAttSignValidations wsPeriod slasherProtection
           (fst (postAttSignUpdate wsPeriod slasherProtection v signed
                   pubKey))
           fuel candidate pubKey
         = Returns (Some failedPreAttSignLocalErr).
Proof.
  intros Hw Hkey Hmark Hlew' Hp.
  destruct (markAttestationForTargetEpoch_stored32 wsPeriod history h' _ _
              (ethpb.Epoch (ethpb.Target (ethpb.Data signed))) Hmark eq_refl)
    as (stored & Hget & Hsrc).
  exists stored. split; [exact Hget|]. split; [exact Hsrc|].
  intros fuel candidate Htarget Hne.
  unfold preAttSignValidations.
  rewrite (postAttSignUpdate_history wsPeriod slasherProtection v signed
             pubKey (Some history) Hkey).
  rewrite Hmark, Htarget.
  rewrite (isNewAttSlashable_double_vote wsPeriod _ fuel h' _ _ lew'
             candidate (Some stored) Hlew' Hp Hget).
  - reflexivity.
  - apply doubleVote_iff.
    unfold signingRootOf, postAttSignUpdate. rewrite Hkey. exact Hne.
Qed.

(** On the store of 32-byte roots the attestation (4, 5) is signed and
    recorded for key 7; the attestation (3, 5) of the same key, whose root
    is not all zero, is then refused. *)
Lemma X10_commit_then_same_target_witness :
  preAttSignValidations (H0 := MemHistory.backend32 100) 100 false
    (fst (postAttSignUpdate (H0 := MemHistory.backend32 100) 100 false
            (Sample.client (Some MemHistory.fresh) (Sample.rootOf x02) None)
            (Sample.att 4 5) 7))
    10 (Sample.att 3 5) 7
  = Returns (Some failedPreAttSignLocalErr).
Proof.
  destruct (Sample.record32 (Some MemHistory.fresh) 4 5) as [h'|] eqn:Hrec;
    [|by vm_compute in Hrec].
  destruct (X10_commit_then_same_target_rejected
              (B := MemHistory.backend32 100) 100 (MemHistory_laws32 100)
              false
              (Sample.client (Some MemHistory.fresh) (Sample.rootOf x02) None)
              (Sample.att 4 5) 7 MemHistory.fresh h' 5)
    as (stored & Hget & _ & Hreject).
  - lia.
  - reflexivity.
  - exact Hrec.
  - vm_compute in Hrec. injection Hrec as <-. reflexivity.
  - reflexivity.
  - apply Hreject; [reflexivity|].
    vm_compute in Hrec. injection Hrec as <-.
    vm_compute in Hget. injection Hget as <-. discriminate.
Defined.

(** X11. A failed update erases the local protection of the key. When the
    map has an entry for the key and [markAttestationForTargetEpoch] returns
    nil on it (the history was nil already, or a read or write of the store
    failed), [postAttSignUpdate] stores nil for the key, and from then on
    [preAttSignValidations] never rejects an attestation of that key on
    behalf of the local history: its answer is the external slasher's
    alone. *)
Theorem X11_failed_update_erases_protection {H : Type} {B : kv.EncHistory H}
  (wsPeriod : Z) (slasherProtection : bool) (v : validator H)
  (signed : ethpb.IndexedAttestation) (pubKey : N)
  (attesterHistory : option H) :
  attesterHistoryByPubKey v !! pubKey = Some attesterHistory ->
  markAttestationForTargetEpoch wsPeriod attesterHistory
    (ethpb.Epoch (ethpb.Source (ethpb.Data signed)))
    (ethpb.Epoch (ethpb.Target (ethpb.Data signed))) = None ->
  attesterHistoryByPubKey
    (fst (postAttSignUpdate wsPeriod slasherProtection v signed pubKey))
    !! pubKey = Some None
  /\ forall (fuel : nat) (candidate : ethpb.IndexedAttestation),
       preAttSignValidations wsPeriod slasherProtection
         (fst (postAttSignUpdate wsPeriod slasherProtection v signed pubKey))
         fuel candidate pubKey
       = Returns
           (externalPreCheck slasherProtection
              (fst (postAttSignUpdate wsPeriod slasherProtection v signed
                      pubKey))
              candidate).
Proof.
  intros Hkey Hmark.
  assert (Hnil : attesterHistoryByPubKey
            (fst (postAttSignUpdate wsPeriod slasherProtection v signed
                    pubKey)) !! pubKey = Some None).
  { rewrite (postAttSignUpdate_history wsPeriod slasherProtection v signed
               pubKey attesterHistory Hkey).
    rewrite Hmark. reflexivity. }
  split; [exact Hnil|].
  intros fuel candidate. unfold preAttSignValidations.
  rewrite Hnil. reflexivity.
Qed.

(** The history of key 7 cannot be read: the update after signing leaves
    nil, and the next attestation of the key is approved. *)
Lemma X11_failed_update_witness :
  preAttSignValidations (H0 := MemHistory.backend 100) 100 false
    (fst (postAttSignUpdate (H0 := MemHistory.backend 100) 100 false
            (Sample.client (Some MemHistory.unreadable) (Sample.rootOf x02)
               None)
            (Sample.att 4 5) 7))
    10 (Sample.att 3 5) 7
  = Returns None.
Proof.
  apply (proj2
    (X11_failed_update_erases_protection (B := MemHistory.backend 100) 100
       false
       (Sample.client (Some MemHistory.unreadable) (Sample.rootOf x02) None)
       (Sample.att 4 5) 7 (Some MemHistory.unreadable) eq_refl eq_refl)).
Defined.

(** ** The surrounding check inside the window *)

(** For an epoch above [lew - wsPeriod] the bounded lookup has an entry
    exactly when the epoch is not ahead of the high-water mark and its slot
    is read with that entry. *)
Lemma safeTargetToSource_above_boundary {H : Type} {B : kv.EncHistory H}
  (wsPeriod : Z) (history : H) (lew epoch : Z) (d : kv.HistoryData) :
  0 <= epoch < 2 ^ 63 -> 0 <= lew < 2 ^ 63 -> 0 <= wsPeriod < 2 ^ 63 ->
  kv.GetLatestEpochWritten history = Ok lew ->
  lew - wsPeriod < epoch ->
  safeTargetToSource wsPeriod history epoch = Some d
  <-> epoch <= lew
      /\ kv.GetTargetData history (epoch mod wsPeriod) = Ok (Some d).
Proof.
  intros He Hl Hw Hlew Hin.
  destruct (Z_le_gt_dec epoch lew) as [Hle|Hgt].
  - rewrite (safeTargetToSource_in_window wsPeriod history lew epoch)
      by (try assumption; lia).
    destruct (kv.GetTargetData history (epoch mod wsPeriod)) as [[d'|]|e].
    + split.
      * intros [= ->]. split; [exact Hle | reflexivity].
      * intros [_ [= ->]]. reflexivity.
    + split; [discriminate|]. intros [_ Hget]. discriminate.
    + split; [discriminate|]. intros [_ Hget]. discriminate.
  - rewrite (safeTargetToSource_out_of_bounds wsPeriod history lew epoch)
      by (try assumption; lia).
    split; [discriminate | lia].
Qed.

(** X13. The surrounding check away from the boundary. For a candidate whose
    source epoch lies inside the window ([lew - wsPeriod < sourceEpoch];
    epochs below 2^63, fuel for one pass), the surrounding loop ends and
    returns true exactly when some epoch [i] of [[sourceEpoch, targetEpoch]]
    that is not ahead of the high-water mark has a vote in its slot
    [i mod wsPeriod] whose source epoch is greater than [sourceEpoch];
    otherwise it returns false. *)
Theorem X13_surrounding_check_in_window {H : Type} {B : kv.EncHistory H}
  (wsPeriod : Z) (fuel : nat) (history : H) (sourceEpoch targetEpoch lew : Z) :
  0 < wsPeriod < 2 ^ 63 -> 0 <= lew < 2 ^ 63 -> 0 <= sourceEpoch ->
  lew - wsPeriod < sourceEpoch -> targetEpoch < 2 ^ 63 ->
  (Z.to_nat (targetEpoch - sourceEpoch + 1) < fuel)%nat ->
  kv.GetLatestEpochWritten history = Ok lew ->
  (surroundingLoop wsPeriod fuel history sourceEpoch targetEpoch sourceEpoch
   = Returns true
   <-> exists (i : Z) (d : kv.HistoryData),
         sourceEpoch <= i <= targetEpoch /\ i <= lew
         /\ kv.GetTargetData history (i mod wsPeriod) = Ok (Some d)
         /\ kv.Source d > sourceEpoch)
  /\ (surroundingLoop wsPeriod fuel history sourceEpoch targetEpoch
        sourceEpoch = Returns false
      <-> ~ exists (i : Z) (d : kv.HistoryData),
              sourceEpoch <= i <= targetEpoch /\ i <= lew
              /\ kv.GetTargetData history (i mod wsPeriod) = Ok (Some d)
              /\ kv.Source d > sourceEpoch).
Proof.
  intros Hw Hl Hs Hin Ht Hfuel Hlew.
  assert (Hiff : surroundsRecorded wsPeriod history sourceEpoch sourceEpoch
                   targetEpoch
                 <-> exists (i : Z) (d : kv.HistoryData),
                       sourceEpoch <= i <= targetEpoch /\ i <= lew
                       /\ kv.GetTargetData history (i mod wsPeriod)
                          = Ok (Some d)
                       /\ kv.Source d > sourceEpoch).
  { split.
    - intros (i & d & Hi & Hget & Hgt).
      apply (safeTargetToSource_above_boundary wsPeriod history lew i d)
        in Hget as [Hle Hslot]; try assumption; try lia.
      exists i, d. auto.
    - intros (i & d & Hi & Hle & Hslot & Hgt). exists i, d.
      split; [exact Hi|]. split; [|exact Hgt].
      apply (safeTargetToSource_above_boundary wsPeriod history lew i d);
        try assumption; try lia.
      split; assumption. }
  rewrite <- Hiff.
  destruct (surroundingLoop_spec wsPeriod fuel history sourceEpoch
              targetEpoch sourceEpoch Hs) as [(Hres & Hex) | (Hres & Hno)].
  - unfold U64.max. lia.
  - exact Hfuel.
  - rewrite Hres. split; [split; auto|].
    split; [discriminate | contradiction].
  - rewrite Hres. split; [|split; auto].
    split; [discriminate | contradiction].
Qed.

(** With the vote (source 2, target 5) recorded on a fresh history, the
    surrounding loop flags the candidate (source 1, target 6). *)
Lemma X13_surrounding_check_witness :
  exists h' : MemHistory.t,
    Sample.record (Some MemHistory.fresh) 2 5 = Some h'
    /\ surroundingLoop (H0 := MemHistory.backend 100) 100 10 h' 1 6 1
       = Returns true.
Proof.
  destruct (Sample.record (Some MemHistory.fresh) 2 5) as [h'|] eqn:Hrec;
    [|by vm_compute in Hrec].
  exists h'. split; [reflexivity|].
  vm_compute in Hrec. injection Hrec as <-.
  apply (X13_surrounding_check_in_window (B := MemHistory.backend 100) 100
           10 _ 1 6 5).
  - lia.
  - lia.
  - lia.
  - lia.
  - lia.
  - vm_compute. lia.
  - reflexivity.
  - exists 5, (kv.mkHistoryData 2 []).
    split; [lia|]. split; [lia|]. split; [reflexivity | simpl; lia].
Defined.
